(** * Smart Server: handlers and settings resolution

    A shallow embedding of the Python sources of the Smart Server
    ([src/api/ml.py], [src/api/recommendations.py], [src/core/config.py])
    and the properties of its request/response contract and of its
    settings resolution. *)

From Stdlib Require Import ZArith Ascii PrimFloat.
From stdpp Require Import gmap strings list pretty.

Set Warnings "-inexact-float,-register-all".
Local Open Scope Z_scope.

(** ** Python values *)

(** The values a JSON body or a YAML document of the core schema denotes once
    loaded: [None], [bool], [int], [float], [str], [list] and [dict].  A
    [dict] is kept as its list of items. *)
Inductive value : Type :=
  | VNone
  | VBool (b : bool)
  | VInt (n : Z)
  | VFloat (x : float)
  | VStr (s : string)
  | VList (items : list value)
  | VDict (entries : list (value * value)).

(** What a handler or the settings constructor can raise. *)
Inductive exn : Type :=
  | HTTPException (status_code : Z) (detail : string)
  | YAMLError
  | TypeError
  | AttributeError
  | KeyError
  | ValueError
  | ValidationError.

(** [starlette.status.HTTP_404_NOT_FOUND] *)
Definition HTTP_404_NOT_FOUND : Z := 404.

(** [bool(v)]: Python's truth value. *)
Definition truthy (v : value) : bool :=
  match v with
  | VNone => false
  | VBool b => b
  | VInt n => negb (n =? 0)
  | VFloat x => negb (PrimFloat.eqb x 0%float)
  | VStr s => negb (String.eqb s "")
  | VList items => negb (Nat.eqb (length items) 0)
  | VDict entries => negb (Nat.eqb (length entries) 0)
  end.

(** [k == v] for a [str] [k]: only an equal [str] compares equal. *)
Definition eq_str (k : string) (v : value) : bool :=
  match v with
  | VStr s => String.eqb k s
  | _ => false
  end.

(** [needle in hay] on two [str]: [needle] occurs in [hay]. *)
Fixpoint is_substring (needle hay : string) : bool :=
  String.prefix needle hay ||
  match hay with
  | EmptyString => false
  | String _ rest => is_substring needle rest
  end.

(** The item of a [dict] stored under the [str] key [k]. *)
Fixpoint dict_lookup (k : string) (entries : list (value * value)) : option value :=
  match entries with
  | [] => None
  | (k', v) :: rest => if eq_str k k' then Some v else dict_lookup k rest
  end.

(** [k in v] for a [str] [k]: membership in a [dict]'s keys or a [list]'s
    items, substring of a [str], [TypeError] on anything else. *)
Definition py_in (k : string) (v : value) : exn + bool :=
  match v with
  | VDict entries => inr (bool_decide (is_Some (dict_lookup k entries)))
  | VList items => inr (existsb (eq_str k) items)
  | VStr s => inr (is_substring k s)
  | VNone | VBool _ | VInt _ | VFloat _ => inl TypeError
  end.

(** [v[k]] for a [str] [k]: only a [dict] can be indexed by a [str]. *)
Definition getitem (v : value) (k : string) : exn + value :=
  match v with
  | VDict entries =>
      match dict_lookup k entries with
      | Some x => inr x
      | None => inl KeyError
      end
  | _ => inl TypeError
  end.

(** [v.get(k, default)]: only a [dict] has the method. *)
Definition py_get (v : value) (k : string) (default : value) : exn + value :=
  match v with
  | VDict entries => inr (from_option id default (dict_lookup k entries))
  | _ => inl AttributeError
  end.

(** [l[:stop]]: a negative [stop] counts from the end; the bounds are clamped
    to the list. *)
Definition slice_to {A : Type} (l : list A) (stop : Z) : list A :=
  if stop <? 0
  then take (Z.to_nat (Z.of_nat (length l) + stop)) l
  else take (Z.to_nat stop) l.

(** ** [src/api/ml.py] *)

Module PredictionRequest.
Record t : Type := mk {
  data : list (list (string * value));
  model_name : string;
  confidence_threshold : float;
}.
End PredictionRequest.

Module PredictionResponse.
Record t : Type := mk {
  predictions : list (list (string * value));
  model_name : string;
  confidence_scores : list float;
  processing_time_ms : float;
}.
End PredictionResponse.

Module Ml.

Definition predict (request : PredictionRequest.t) : PredictionResponse.t :=
  {| PredictionResponse.predictions :=
       map (fun _ => [("result", VStr "placeholder")]) (PredictionRequest.data request);
     PredictionResponse.model_name := PredictionRequest.model_name request;
     PredictionResponse.confidence_scores :=
       map (fun _ => 0.95%float) (PredictionRequest.data request);
     PredictionResponse.processing_time_ms := 100.0%float |}.

Definition model_default : value :=
  VDict [ (VStr "name", VStr "default");
          (VStr "version", VStr "1.0.0");
          (VStr "type", VStr "classification");
          (VStr "status", VStr "ready");
          (VStr "metrics",
            VDict [ (VStr "accuracy", VFloat 0.95);
                    (VStr "precision", VFloat 0.94);
                    (VStr "recall", VFloat 0.96) ]) ].

Definition model_recommendation : value :=
  VDict [ (VStr "name", VStr "recommendation");
          (VStr "version", VStr "1.0.0");
          (VStr "type", VStr "recommendation");
          (VStr "status", VStr "ready");
          (VStr "metrics",
            VDict [ (VStr "map", VFloat 0.85);
                    (VStr "ndcg", VFloat 0.88) ]) ].

(** The local [models] dictionary of [get_model_info]. *)
Definition models : gmap string value :=
  <["default" := model_default]> (<["recommendation" := model_recommendation]> ∅).

Definition get_model_info (model_name : string) : exn + value :=
  match models !! model_name with
  | None =>
      inl (HTTPException HTTP_404_NOT_FOUND ("Model '" +:+ model_name +:+ "' not found"))
  | Some info => inr info
  end.

End Ml.

(** ** [src/api/recommendations.py] *)

Module RecommendationRequest.
Record t : Type := mk {
  user_id : option string;
  category : string;
  context : option (list (string * value));
  limit : Z;
}.
End RecommendationRequest.

Module RecommendationItem.
Record t : Type := mk {
  id : string;
  name : string;
  category : string;
  score : float;
  description : option string;
  metadata : option (list (string * value));
}.
End RecommendationItem.

Module RecommendationResponse.
Record t : Type := mk {
  user_id : option string;
  category : string;
  recommendations : list RecommendationItem.t;
  total_count : Z;
}.
End RecommendationResponse.

(** An item of the [trending_items] list of [get_trending]. *)
Module TrendingItem.
Record t : Type := mk {
  id : string;
  name : string;
  category : string;
  trend_score : Z;
  popularity : string;
}.
End TrendingItem.

(** The dictionary [get_trending] returns. *)
Module TrendingResponse.
Record t : Type := mk {
  trending : list TrendingItem.t;
  updated_at : string;
}.
End TrendingResponse.

Module Recommendations.

Definition food_items : list RecommendationItem.t :=
  [ RecommendationItem.mk "1" "Korean BBQ" "food" 0.95
      (Some "Delicious grilled meat with vegetables") None;
    RecommendationItem.mk "2" "Sushi" "food" 0.88
      (Some "Fresh Japanese cuisine") None;
    RecommendationItem.mk "3" "Pizza" "food" 0.82
      (Some "Classic Italian comfort food") None ].

Definition place_items : list RecommendationItem.t :=
  [ RecommendationItem.mk "4" "Central Park" "place" 0.92
      (Some "Beautiful urban park") None;
    RecommendationItem.mk "5" "Museum of Art" "place" 0.87
      (Some "World-class art collection") None ].

Definition activity_items : list RecommendationItem.t :=
  [ RecommendationItem.mk "6" "Hiking" "activity" 0.90
      (Some "Outdoor adventure in nature") None;
    RecommendationItem.mk "7" "Movie Night" "activity" 0.85
      (Some "Relaxing entertainment at home") None ].

Definition get_recommendations (request : RecommendationRequest.t)
  : RecommendationResponse.t :=
  let recommendations :=
    if String.eqb (RecommendationRequest.category request) "food" then food_items
    else if String.eqb (RecommendationRequest.category request) "place" then place_items
    else if String.eqb (RecommendationRequest.category request) "activity" then activity_items
    else [] in
  {| RecommendationResponse.user_id := RecommendationRequest.user_id request;
     RecommendationResponse.category := RecommendationRequest.category request;
     RecommendationResponse.recommendations :=
       slice_to recommendations (RecommendationRequest.limit request);
     RecommendationResponse.total_count := Z.of_nat (length recommendations) |}.

Definition trending_items : list TrendingItem.t :=
  [ TrendingItem.mk "t1" "Trendy Cafe" "food" 98 "rising";
    TrendingItem.mk "t2" "New Art Gallery" "place" 95 "hot";
    TrendingItem.mk "t3" "Escape Room" "activity" 92 "rising" ].

(** An [Optional[str]] as a value: [None] or the [str]. *)
Definition optional_str (o : option string) : value :=
  match o with
  | Some s => VStr s
  | None => VNone
  end.

Definition get_trending (category : option string) (limit : Z) : TrendingResponse.t :=
  let trending_items :=
    if truthy (optional_str category)
    then List.filter
           (fun item => eq_str (TrendingItem.category item) (optional_str category))
           trending_items
    else trending_items in
  {| TrendingResponse.trending := slice_to trending_items limit;
     TrendingResponse.updated_at := "2024-01-01T00:00:00Z" |}.

End Recommendations.

(** ** [src/core/config.py] *)

(** What the constructor finds at a configuration path: no file
    ([config_path.exists()] is false), a file [yaml.safe_load] rejects
    ([YAMLError]), or a file with the value [yaml.safe_load] returns for it
    ([None] for an empty document). *)
Inductive yaml_file : Type :=
  | Absent
  | Malformed
  | Loaded (config : value).

Module Settings.

(** The fields of the class.  [HOST] and [PORT] hold a [value]: an assignment
    to a field is not validated, so [_apply_yaml_config] stores whatever the
    file gives. *)
Record t : Type := mk {
  APP_NAME : string;
  VERSION : string;
  ENVIRONMENT : string;
  DEBUG : bool;
  HOST : value;
  PORT : value;
  LOG_LEVEL : string;
  CORS_ORIGINS : list string;
  API_PREFIX : string;
  DOCS_ENABLED : bool;
  SECRET_KEY : string;
  ALGORITHM : string;
  ACCESS_TOKEN_EXPIRE_MINUTES : Z;
  MODEL_PATH : string;
  MAX_BATCH_SIZE : Z;
  PREDICTION_TIMEOUT : Z;
}.

(** The class-level defaults. *)
Definition defaults : t :=
  {| APP_NAME := "Niney Life Pickr Smart Server";
     VERSION := "1.0.0";
     ENVIRONMENT := "development";
     DEBUG := true;
     HOST := VStr "localhost";
     PORT := VInt 5000;
     LOG_LEVEL := "INFO";
     CORS_ORIGINS := ["http://localhost:3000"; "http://localhost:4000"];
     API_PREFIX := "/api";
     DOCS_ENABLED := true;
     SECRET_KEY := "your-secret-key-here-change-in-production";
     ALGORITHM := "HS256";
     ACCESS_TOKEN_EXPIRE_MINUTES := 30;
     MODEL_PATH := "models/";
     MAX_BATCH_SIZE := 32;
     PREDICTION_TIMEOUT := 30 |}.

(** Attribute assignment, [self.X = v]. *)
Definition with_HOST (v : value) (s : t) : t :=
  mk (APP_NAME s) (VERSION s) (ENVIRONMENT s) (DEBUG s) v (PORT s) (LOG_LEVEL s)
     (CORS_ORIGINS s) (API_PREFIX s) (DOCS_ENABLED s) (SECRET_KEY s) (ALGORITHM s)
     (ACCESS_TOKEN_EXPIRE_MINUTES s) (MODEL_PATH s) (MAX_BATCH_SIZE s)
     (PREDICTION_TIMEOUT s).

Definition with_PORT (v : value) (s : t) : t :=
  mk (APP_NAME s) (VERSION s) (ENVIRONMENT s) (DEBUG s) (HOST s) v (LOG_LEVEL s)
     (CORS_ORIGINS s) (API_PREFIX s) (DOCS_ENABLED s) (SECRET_KEY s) (ALGORITHM s)
     (ACCESS_TOKEN_EXPIRE_MINUTES s) (MODEL_PATH s) (MAX_BATCH_SIZE s)
     (PREDICTION_TIMEOUT s).

Definition with_ENVIRONMENT (v : string) (s : t) : t :=
  mk (APP_NAME s) (VERSION s) v (DEBUG s) (HOST s) (PORT s) (LOG_LEVEL s)
     (CORS_ORIGINS s) (API_PREFIX s) (DOCS_ENABLED s) (SECRET_KEY s) (ALGORITHM s)
     (ACCESS_TOKEN_EXPIRE_MINUTES s) (MODEL_PATH s) (MAX_BATCH_SIZE s)
     (PREDICTION_TIMEOUT s).

Definition with_LOG_LEVEL (v : string) (s : t) : t :=
  mk (APP_NAME s) (VERSION s) (ENVIRONMENT s) (DEBUG s) (HOST s) (PORT s) v
     (CORS_ORIGINS s) (API_PREFIX s) (DOCS_ENABLED s) (SECRET_KEY s) (ALGORITHM s)
     (ACCESS_TOKEN_EXPIRE_MINUTES s) (MODEL_PATH s) (MAX_BATCH_SIZE s)
     (PREDICTION_TIMEOUT s).

(** *** Methods: computations on [self] that may raise

    A method maps the object to its outcome (an exception or a result) and the
    object as the method leaves it, also when it raises. *)
Definition method (A : Type) : Type := t -> (exn + A) * t.

#[global] Instance method_ret : MRet method :=
  fun A x self => (inr x, self).

#[global] Instance method_bind : MBind method :=
  fun A B k m self =>
    match m self with
    | (inr x, self') => k x self'
    | (inl e, self') => (inl e, self')
    end.

(** The method returns [x]. *)
Definition ret {A : Type} (x : A) : method A := mret x.

(** An outcome computed without touching [self]. *)
Definition lift {A : Type} (r : exn + A) : method A :=
  fun self => (r, self).

Definition raise {A : Type} (e : exn) : method A := lift (inl e).

(** [self.X] *)
Definition attr {A : Type} (field : t -> A) : method A :=
  fun self => (inr (field self), self).

(** [self.X = v], through one of the [with_X] above. *)
Definition assign (update : t -> t) : method unit :=
  fun self => (inr (), update self).

(** [a and b] in a condition: [b] is evaluated only when [a] is true. *)
Definition and_then (a b : method bool) : method bool :=
  x ← a; if (x : bool) then b else ret false.

(** The object as a method leaves it, whether it returns or raises. *)
Definition after {A : Type} (m : method A) (self : t) : t := snd (m self).

(** Two objects that agree on every field other than [HOST] and [PORT]. *)
Definition same_but_HOST_PORT (s s' : t) : Prop :=
  APP_NAME s' = APP_NAME s /\
  VERSION s' = VERSION s /\
  ENVIRONMENT s' = ENVIRONMENT s /\
  DEBUG s' = DEBUG s /\
  LOG_LEVEL s' = LOG_LEVEL s /\
  CORS_ORIGINS s' = CORS_ORIGINS s /\
  API_PREFIX s' = API_PREFIX s /\
  DOCS_ENABLED s' = DOCS_ENABLED s /\
  SECRET_KEY s' = SECRET_KEY s /\
  ALGORITHM s' = ALGORITHM s /\
  ACCESS_TOKEN_EXPIRE_MINUTES s' = ACCESS_TOKEN_EXPIRE_MINUTES s /\
  MODEL_PATH s' = MODEL_PATH s /\
  MAX_BATCH_SIZE s' = MAX_BATCH_SIZE s /\
  PREDICTION_TIMEOUT s' = PREDICTION_TIMEOUT s.

Section Process.

(** The surroundings of the process: the builtins [int] on a [str]
    ([None] where it raises [ValueError]) and [str], the files of the
    [config] directory by name, and [os.environ]. *)
Variable py_int : string -> option Z.
Variable py_str : value -> string.
Variable config_dir : string -> yaml_file.
Variable environ : gmap string string.

(** [os.getenv(key, default)] with a [str] default. *)
Definition getenv (key default : string) : string :=
  from_option id default (environ !! key).

(** [int(s)] *)
Definition int (s : string) : exn + Z :=
  match py_int s with
  | Some n => inr n
  | None => inl ValueError
  end.

Definition _apply_yaml_config (config_path : string) : method unit :=
  match config_dir config_path with
  | Absent => ret ()
  | Malformed => raise YAMLError
  | Loaded config =>
      cond ← and_then (ret (truthy config))
               (and_then (lift (py_in "server" config))
                  (server ← lift (getitem config "server");
                   lift (py_in "smart" server)));
      if (cond : bool) then
        server ← lift (getitem config "server");
        smart_config ← lift (getitem server "smart");
        host ← attr HOST;
        host' ← lift (py_get smart_config "host" host);
        assign (with_HOST host');;
        port ← attr PORT;
        port' ← lift (py_get smart_config "port" port);
        assign (with_PORT port')
      else ret ()
  end.

Definition _load_yaml_config : method unit :=
  (* Load base config *)
  _apply_yaml_config "base.yml";;
  (* Load environment-specific config *)
  environment ← attr ENVIRONMENT;
  let env := getenv "PYTHON_ENV" environment in
  _apply_yaml_config (env +:+ ".yml");;
  (* Environment variables override everything *)
  host ← attr HOST;
  assign (with_HOST (from_option VStr host (environ !! "HOST")));;
  port ← attr PORT;
  port' ← lift (int (getenv "PORT" (py_str port)));
  assign (with_PORT (VInt port'));;
  environment ← attr ENVIRONMENT;
  assign (with_ENVIRONMENT (getenv "PYTHON_ENV" environment));;
  log_level ← attr LOG_LEVEL;
  assign (with_LOG_LEVEL (getenv "LOG_LEVEL" log_level)).

(** The constructor.  [base] is the outcome of the [BaseSettings] constructor
    it calls first: the fields as resolved and validated there, or the
    [ValidationError] raised. *)
Definition __init__ (base : exn + t) : exn + t :=
  match base with
  | inl e => inl e
  | inr self =>
      match _load_yaml_config self with
      | (inl e, _) => inl e
      | (inr _, self') => inr self'
      end
  end.

End Process.

End Settings.

(** ** Sample inputs

    The requests of [tests/conftest.py] and [tests/integration/test_ml.py], and
    plain stand-ins for the builtins to run the constructor with. *)

Definition sample_prediction_request : PredictionRequest.t :=
  {| PredictionRequest.data :=
       [ [("feature1", VFloat 1.0); ("feature2", VFloat 2.0)] ];
     PredictionRequest.model_name := "default";
     PredictionRequest.confidence_threshold := 0.5 |}.

Definition multiple_data_points_request : PredictionRequest.t :=
  {| PredictionRequest.data :=
       [ [("feature1", VFloat 1.0); ("feature2", VFloat 2.0)];
         [("feature1", VFloat 3.0); ("feature2", VFloat 4.0)];
         [("feature1", VFloat 5.0); ("feature2", VFloat 6.0)] ];
     PredictionRequest.model_name := "default";
     PredictionRequest.confidence_threshold := 0.7 |}.

Definition sample_recommendation_request : RecommendationRequest.t :=
  {| RecommendationRequest.user_id := Some "test_user_123";
     RecommendationRequest.category := "food";
     RecommendationRequest.context :=
       Some [("location", VStr "Seoul"); ("time", VStr "dinner")];
     RecommendationRequest.limit := 5 |}.

(** The value of a decimal digit. *)
Definition digit_value (c : ascii) : option Z :=
  let n := Z.of_nat (nat_of_ascii c) in
  if (48 <=? n) && (n <=? 57) then Some (n - 48) else None.

Fixpoint digits_value (acc : Z) (s : string) : option Z :=
  match s with
  | EmptyString => Some acc
  | String c rest =>
      match digit_value c with
      | Some d => digits_value (10 * acc + d) rest
      | None => None
      end
  end.

(** [int] on the plain decimal numerals: an optional sign and one or more
    digits; anything else is refused. *)
Definition decimal_int (s : string) : option Z :=
  match s with
  | EmptyString => None
  | String "-"%char (String _ _ as rest) => Z.opp <$> digits_value 0 rest
  | String "+"%char (String _ _ as rest) => digits_value 0 rest
  | String "-"%char EmptyString | String "+"%char EmptyString => None
  | _ => digits_value 0 s
  end.

(** [str] on the scalars [None], [bool], [int] and [str]; a float or a
    container is abbreviated to its type name. *)
Definition scalar_str (v : value) : string :=
  match v with
  | VNone => "None"
  | VBool true => "True"
  | VBool false => "False"
  | VInt n => pretty n
  | VStr s => s
  | VFloat _ => "float"
  | VList _ => "list"
  | VDict _ => "dict"
  end.

(** A [config] directory without any file. *)
Definition no_files : string -> yaml_file := fun _ => Absent.

(** A [config] directory whose [base.yml] holds [{ invalid yaml content :],
    the text of [test_load_invalid_yaml], which [yaml.safe_load] rejects. *)
Definition invalid_base_yml : string -> yaml_file :=
  fun path => if String.eqb path "base.yml" then Malformed else Absent.

(** A [config] directory whose [base.yml] holds
    [server: {smart: {host: 127.0.0.1, port: 5001, log_level: DEBUG}}]. *)
Definition smart_base_yml : string -> yaml_file :=
  fun path =>
    if String.eqb path "base.yml"
    then Loaded (VDict [ (VStr "server",
                   VDict [ (VStr "smart",
                     VDict [ (VStr "host", VStr "127.0.0.1");
                             (VStr "port", VInt 5001);
                             (VStr "log_level", VStr "DEBUG") ]) ]) ])
    else Absent.

(** ** More of [src/core/config.py]: what the constructor leaves alone *)

(** Two objects that agree on every field other than the four
    [_load_yaml_config] assigns: [HOST], [PORT], [ENVIRONMENT], [LOG_LEVEL]. *)
Definition same_but_resolved (s s' : Settings.t) : Prop :=
  Settings.APP_NAME s' = Settings.APP_NAME s /\
  Settings.VERSION s' = Settings.VERSION s /\
  Settings.DEBUG s' = Settings.DEBUG s /\
  Settings.CORS_ORIGINS s' = Settings.CORS_ORIGINS s /\
  Settings.API_PREFIX s' = Settings.API_PREFIX s /\
  Settings.DOCS_ENABLED s' = Settings.DOCS_ENABLED s /\
  Settings.SECRET_KEY s' = Settings.SECRET_KEY s /\
  Settings.ALGORITHM s' = Settings.ALGORITHM s /\
  Settings.ACCESS_TOKEN_EXPIRE_MINUTES s' = Settings.ACCESS_TOKEN_EXPIRE_MINUTES s /\
  Settings.MODEL_PATH s' = Settings.MODEL_PATH s /\
  Settings.MAX_BATCH_SIZE s' = Settings.MAX_BATCH_SIZE s /\
  Settings.PREDICTION_TIMEOUT s' = Settings.PREDICTION_TIMEOUT s.

(** The document of [test_settings_from_yaml]: the mapping sits under
    [servers], not under [server]. *)
Definition servers_yml : string -> yaml_file :=
  fun path =>
    if String.eqb path "base.yml"
    then Loaded (VDict [ (VStr "servers",
                   VDict [ (VStr "smart",
                     VDict [ (VStr "host", VStr "127.0.0.1");
                             (VStr "port", VInt 5001) ]) ]) ])
    else Absent.

(** A [base.yml] holding [server: {smart: enabled}]: [smart] is a string. *)
Definition smart_scalar_yml : string -> yaml_file :=
  fun path =>
    if String.eqb path "base.yml"
    then Loaded (VDict [ (VStr "server",
                   VDict [ (VStr "smart", VStr "enabled") ]) ])
    else Absent.

(** A [base.yml] holding [server: 8080]. *)
Definition server_number_yml : string -> yaml_file :=
  fun path =>
    if String.eqb path "base.yml"
    then Loaded (VDict [ (VStr "server", VInt 8080) ])
    else Absent.

(** A [base.yml] with host and port, and a [production.yml] with a port
    only. *)
Definition layered_yml : string -> yaml_file :=
  fun path =>
    if String.eqb path "base.yml"
    then Loaded (VDict [ (VStr "server",
                   VDict [ (VStr "smart",
                     VDict [ (VStr "host", VStr "0.0.0.0");
                             (VStr "port", VInt 5000) ]) ]) ])
    else if String.eqb path "production.yml"
    then Loaded (VDict [ (VStr "server",
                   VDict [ (VStr "smart",
                     VDict [ (VStr "port", VInt 8080) ]) ]) ])
    else Absent.

(** ** [scripts/start.py] and [scripts/dev.py] *)

Module Scripts.

(** [os.environ["PYTHON_ENV"] = "production"], as [start.py] does before it
    imports the server, and with it [src.core.config]. *)
Definition start_environ (environ : gmap string string) : gmap string string :=
  <["PYTHON_ENV" := "production"]> environ.

(** [os.environ["PYTHON_ENV"] = "development"], as [dev.py] does. *)
Definition dev_environ (environ : gmap string string) : gmap string string :=
  <["PYTHON_ENV" := "development"]> environ.

Section Startup.
Variable py_int : string -> option Z.
Variable py_str : value -> string.
Variable config_dir : string -> yaml_file.
Variable environ : gmap string string.

(** The module-level [settings = Settings()] as each script reaches it. *)
Definition start_settings (base : exn + Settings.t) : exn + Settings.t :=
  Settings.__init__ py_int py_str config_dir (start_environ environ) base.

Definition dev_settings (base : exn + Settings.t) : exn + Settings.t :=
  Settings.__init__ py_int py_str config_dir (dev_environ environ) base.

End Startup.

End Scripts.

(** The [config] directory of [smart_base_yml] with one more file, a
    [staging.yml] that [yaml.safe_load] rejects. *)
Definition stray_file_yml : string -> yaml_file :=
  fun path => if String.eqb path "staging.yml" then Malformed else smart_base_yml path.

(** ** More of [src/api/ml.py] and [src/api/recommendations.py] *)

Module MlCatalog.

(** [list_models()]: the dictionary with the list of models under
    ["models"]. *)
Definition list_models : value :=
  VDict [ (VStr "models",
            VList [ VDict [ (VStr "name", VStr "default");
                            (VStr "version", VStr "1.0.0");
                            (VStr "type", VStr "classification");
                            (VStr "status", VStr "ready") ];
                    VDict [ (VStr "name", VStr "recommendation");
                            (VStr "version", VStr "1.0.0");
                            (VStr "type", VStr "recommendation");
                            (VStr "status", VStr "ready") ] ]) ].

(** The items of the list under ["models"]. *)
Definition listed_models : list value :=
  match getitem list_models "models" with
  | inr (VList items) => items
  | _ => []
  end.

End MlCatalog.

Module Categories.

(** [get_categories()] *)
Definition get_categories : gmap string (list string) :=
  {[ "categories" := ["food"; "place"; "activity"; "entertainment"; "shopping"] ]}.

(** The list under ["categories"]. *)
Definition listed_categories : list string :=
  default [] (get_categories !! "categories").

End Categories.

(** ** [scripts/verify-links.py] *)

Module VerifyLinks.

(** A path, by its components. *)
Abbreviation path := (list string).

(** A directory as [os.walk] sees it: the names of its files and its
    subdirectories, each in the order they are listed. *)
Inductive tree : Type :=
  | Dir (files : list string) (dirs : list (string * tree)).

(** [s.endswith(suffix)] *)
Definition endswith (s suffix : string) : bool :=
  (String.length suffix <=? String.length s)%nat &&
  String.eqb
    (String.substring (String.length s - String.length suffix) (String.length suffix) s)
    suffix.

(** [find_markdown_files(root_dir)]: [os.walk] visits a directory, then its
    subdirectories in turn; the files whose name ends in [.md] are collected
    as [Path(root) / file]. *)
Fixpoint find_markdown_files (root : path) (t : tree) : list path :=
  match t with
  | Dir files dirs =>
      map (fun file => root ++ [file]) (List.filter (fun file => endswith file ".md") files)
      ++ flat_map (fun d => let '(name, sub) := d in
                            find_markdown_files (root ++ [name]) sub) dirs
  end.

(** [c in s] for a character [c]. *)
Fixpoint occurs (c : ascii) (s : string) : bool :=
  match s with
  | EmptyString => false
  | String a rest => Ascii.eqb a c || occurs c rest
  end.

(** The files of a tree: [has_file t names file] when [file] is listed in
    the directory reached from [t] through the subdirectories [names]. *)
Inductive has_file : tree -> list string -> string -> Prop :=
  | has_file_here files dirs file :
      file ∈ files -> has_file (Dir files dirs) [] file
  | has_file_below files dirs name sub names file :
      (name, sub) ∈ dirs -> has_file sub names file ->
      has_file (Dir files dirs) (name :: names) file.

(** The text before the first [c] in [s] and the text after it; [None] when
    [c] does not occur. *)
Fixpoint split_at (c : ascii) (s : string) : option (string * string) :=
  match s with
  | EmptyString => None
  | String a rest =>
      if Ascii.eqb a c then Some (EmptyString, rest)
      else match split_at c rest with
           | Some (before, after) => Some (String a before, after)
           | None => None
           end
  end.

(** A match of the pattern [\[([^\]]+)\]\(([^)]+\.md)\)] at the start of [s]:
    the two groups and the text after the match.  The first group cannot hold
    a closing bracket and is followed by one, so it runs to the first closing
    bracket; likewise the second group runs to the first closing parenthesis,
    and is a match when it is some character followed by [.md]. *)
Definition match_link (s : string) : option ((string * string) * string) :=
  match s with
  | EmptyString => None
  | String a s1 =>
      if Ascii.eqb a "[" then
        match split_at "]" s1 with
        | Some (group1, String b s2) =>
            if negb (String.eqb group1 "") && Ascii.eqb b "(" then
              match split_at ")" s2 with
              | Some (group2, rest) =>
                  if (4 <=? String.length group2)%nat && endswith group2 ".md"
                  then Some ((group1, group2), rest)
                  else None
              | None => None
              end
            else None
        | _ => None
        end
      else None
  end.

(** [re.findall(pattern, s)]: the matches from left to right, each search
    starting where the last match ended, or one character further on when
    there is no match at a position.  Every step consumes a character, so
    [fuel] as long as [s] is enough. *)
Fixpoint findall (fuel : nat) (s : string) : list (string * string) :=
  match fuel with
  | O => []
  | S fuel' =>
      match match_link s with
      | Some (groups, rest) => groups :: findall fuel' rest
      | None =>
          match s with
          | EmptyString => []
          | String _ s' => findall fuel' s'
          end
      end
  end.

Definition extract_links (content : string) : list (string * string) :=
  findall (String.length content) content.

(** An entry of [broken_links]. *)
Record broken_link : Type := mk_broken {
  file : path;
  text : string;
  link : string;
  expected : path;
}.

(** What [main] has done to [link-verification-errors.txt] when it
    returns. *)
Inductive error_file : Type :=
  | Untouched
  | Written (items : list broken_link)
  | Removed.

(** What [main] returns, with the two counters it prints. *)
Record report : Type := mk_report {
  exit_code : Z;
  total_links : nat;
  broken_links : list broken_link;
  errors : error_file;
}.

(** What the calls [main] makes outside any [try] can raise: an [OSError]
    of the file system (a name too long, a permission denied), the
    [ValueError] of [resolve()] on a name with a null byte, and the error of
    an output stream that cannot take a text. *)
Inductive failure : Type :=
  | OSError (errno : Z)
  | NullByteError
  | OutputError.

(** A computation of the script: the exception that ends it, or its
    result. *)
Definition out (A : Type) : Type := failure + A.

#[global] Instance out_ret : MRet out := fun A x => inr x.

#[global] Instance out_bind : MBind out :=
  fun A B k m =>
    match m with
    | inr x => k x
    | inl e => inl e
    end.

(** The lines [main] prints, each with the values it interpolates. *)
Inductive message : Type :=
  | Started
  | Blank
  | DocsNotFound (docs_dir : path)
  | FileCount (n : nat)
  | ReadFailed (rel_path : path)
  | Checking (rel_path : path) (n : nat)
  | BrokenLinkFound (text link : string)
  | Finished
  | TotalLinks (n : nat)
  | BrokenCount (n : nat)
  | ErrorHeading
  | ItemFile (rel_path : path)
  | ItemText (text : string)
  | ItemLink (link : string)
  | ItemExpected (expected : path)
  | Saved (name : string)
  | Success.

Section Main.

(** [pathlib], the file system and the output: [Path(s)], [p.parent],
    [p / s] for a link [s], [p.resolve()] and [p.exists()] with what they
    raise, [p.relative_to(project_root)], which [main] calls
    on paths under the project root only, and
    [p.is_relative_to(project_root)], [p.read_text()] ([None] where it
    raises, which [main] catches), [sorted] on paths, [print], the writing of
    the errors file and [p.unlink()], each of the last three with the
    exception it raises if it does. *)
Variable Path : string -> path.
Variable parent : path -> path.
Variable joinpath : path -> string -> path.
Variable resolve : path -> out path.
Variable path_exists : path -> out bool.
Variable relative_to_root : path -> path.
Variable is_relative_to_root : path -> bool.
Variable read_text : path -> option string.
Variable sorted : list path -> list path.
Variable print : message -> option failure.
Variable write_errors : path -> list broken_link -> option failure.
Variable unlink : path -> option failure.

(** A call made for its effect: it raises or it goes on. *)
Definition effect (raised : option failure) : out unit :=
  match raised with
  | Some e => inl e
  | None => inr ()
  end.

Definition resolve_path (current_file : path) (link : string) : out path :=
  let current_dir := parent current_file in
  if String.prefix "/" link then mret (Path link)
  else resolve (joinpath current_dir link).

(** [link.startswith('http://') or link.startswith('https://')] *)
Definition is_external (link : string) : bool :=
  String.prefix "http://" link || String.prefix "https://" link.

(** The links [main] takes from a file: none when it cannot be read. *)
Definition links_of (md_file : path) : list (string * string) :=
  match read_text md_file with
  | Some content => extract_links content
  | None => []
  end.

(** The loop over the links of one file. *)
Fixpoint check_links (md_file rel_path : path) (links : list (string * string))
    (total : nat) (broken : list broken_link) : out (nat * list broken_link) :=
  match links with
  | [] => mret (total, broken)
  | (text, link) :: rest =>
      let total := S total in
      if is_external link then check_links md_file rel_path rest total broken
      else
        resolved_path ← resolve_path md_file link;
        found ← path_exists resolved_path;
        if negb found
        then
          let broken :=
            broken ++ [ {| file := rel_path;
                           text := text;
                           link := link;
                           expected := if is_relative_to_root resolved_path
                                       then relative_to_root resolved_path
                                       else resolved_path |} ] in
          effect (print (BrokenLinkFound text link));;
          check_links md_file rel_path rest total broken
        else check_links md_file rel_path rest total broken
  end.

(** The loop over the files. *)
Fixpoint check_files (md_files : list path) (total : nat) (broken : list broken_link)
  : out (nat * list broken_link) :=
  match md_files with
  | [] => mret (total, broken)
  | md_file :: rest =>
      let rel_path := relative_to_root md_file in
      match read_text md_file with
      | None =>
          effect (print (ReadFailed rel_path));;
          check_files rest total broken
      | Some content =>
          let links := extract_links content in
          match links with
          | [] => check_files rest total broken
          | _ :: _ =>
              effect (print (Checking rel_path (length links)));;
              counted ← check_links md_file rel_path links total broken;
              check_files rest counted.1 counted.2
          end
      end
  end.

(** The loop that prints the entries. *)
Fixpoint print_items (items : list broken_link) : out unit :=
  match items with
  | [] => mret ()
  | item :: rest =>
      effect (print (ItemFile (file item)));;
      effect (print (ItemText (text item)));;
      effect (print (ItemLink (link item)));;
      effect (print (ItemExpected (expected item)));;
      effect (print Blank);;
      print_items rest
  end.

(** [main()], for the project root the script finds from its own path and
    the directory tree that [os.walk] finds under [docs/claude]. *)
Definition main (project_root : path) (docs : tree) : out report :=
  effect (print Started);;
  effect (print Blank);;
  let docs_dir := project_root ++ ["docs"; "claude"] in
  docs_found ← path_exists docs_dir;
  if negb docs_found then
    effect (print (DocsNotFound docs_dir));;
    mret (mk_report 1 0 [] Untouched)
  else
    let md_files := find_markdown_files docs_dir docs in
    effect (print (FileCount (length md_files)));;
    effect (print Blank);;
    counted ← check_files (sorted md_files) 0 [];
    let total_links := counted.1 in
    let broken_links := counted.2 in
    effect (print Blank);;
    effect (print Finished);;
    effect (print (TotalLinks total_links));;
    effect (print (BrokenCount (length broken_links)));;
    effect (print Blank);;
    match broken_links with
    | _ :: _ =>
        effect (print ErrorHeading);;
        effect (print Blank);;
        print_items broken_links;;
        let error_file := project_root ++ ["link-verification-errors.txt"] in
        effect (write_errors error_file broken_links);;
        effect (print (Saved "link-verification-errors.txt"));;
        mret (mk_report 1 total_links broken_links (Written broken_links))
    | [] =>
        effect (print Success);;
        let error_file := project_root ++ ["link-verification-errors.txt"] in
        error_file_found ← path_exists error_file;
        if (error_file_found : bool) then
          effect (unlink error_file);;
          mret (mk_report 0 total_links broken_links Removed)
        else mret (mk_report 0 total_links broken_links Untouched)
    end.

End Main.

End VerifyLinks.

(** A [docs/claude] directory to run [main] on: [README.md] links to
    [guide.md], which is there, to [missing.md], which is not, and to a page
    on the web; [notes.txt] is no Markdown file. *)
Definition sample_docs : VerifyLinks.tree :=
  VerifyLinks.Dir ["README.md"; "notes.txt"]
    [ ("guides", VerifyLinks.Dir ["guide.md"] []) ].

Definition sample_read_text (p : list string) : option string :=
  if bool_decide (p = ["docs"; "claude"; "README.md"])
  then Some "[Guide](guides/guide.md) [Gone](missing.md) [Web](https://example.com/a.md)"
  else if bool_decide (p = ["docs"; "claude"; "guides"; "guide.md"])
  then Some "# Guide"
  else None.

(** Paths by components, with no symbolic link: [p / s] appends [s] as one
    component; the directory, the two Markdown files and [guides/guide.md]
    seen from the directory of [README.md] exist, and nothing raises. *)
Definition sample_joinpath (p : list string) (s : string) : list string := p ++ [s].

Definition sample_exists (p : list string) : bool :=
  bool_decide (p ∈ [ ["docs"; "claude"];
                     ["docs"; "claude"; "README.md"];
                     ["docs"; "claude"; "guides"; "guide.md"];
                     ["docs"; "claude"; "guides/guide.md"] ]).

(** A name of 256 characters and [.md]: longer than a file name may be, so
    that [exists()] raises [OSError] 36 on a path that has it. *)
Definition overlong_md : string :=
  String.concat "" (replicate 256 "a") +:+ ".md".

Definition overlong_read_text (p : list string) : option string :=
  if bool_decide (p = ["docs"; "claude"; "README.md"])
  then Some ("[Long](" +:+ overlong_md +:+ ")")
  else None.

Definition checked_exists (p : list string) : VerifyLinks.out bool :=
  if existsb (fun name => (255 <? String.length name)%nat) p
  then inl (VerifyLinks.OSError 36)
  else inr (sample_exists p).

Definition sample_main : VerifyLinks.out VerifyLinks.report :=
  VerifyLinks.main (fun s => [s]) (@removelast string) sample_joinpath inr
    (fun p => inr (sample_exists p)) id (fun _ => true) sample_read_text id
    (fun _ => None) (fun _ _ => None) (fun _ => None) [] sample_docs.


(** * Properties *)

(** ** Slicing *)

Section Slicing.
Context {A : Type}.
Implicit Types (l : list A) (stop : Z).

Lemma slice_to_nonneg l stop : 0 <= stop -> slice_to l stop = take (Z.to_nat stop) l.
Proof.
  intros Hstop. unfold slice_to.
  destruct (Z.ltb_spec stop 0) as [Hneg | _]; [lia | reflexivity].
Qed.

Lemma slice_to_length_le l stop :
  0 <= stop -> Z.of_nat (length (slice_to l stop)) <= stop.
Proof.
  intros Hstop. rewrite slice_to_nonneg by assumption.
  rewrite length_take. lia.
Qed.

Lemma slice_to_length_le_all l stop : (length (slice_to l stop) <= length l)%nat.
Proof.
  unfold slice_to. destruct (stop <? 0); rewrite length_take; lia.
Qed.

Lemma slice_to_zero l : slice_to l 0 = [].
Proof. reflexivity. Qed.

Lemma slice_to_all l stop : Z.of_nat (length l) <= stop -> slice_to l stop = l.
Proof.
  intros Hlen. rewrite slice_to_nonneg by lia.
  apply take_ge. lia.
Qed.

Lemma slice_to_elem_of l stop x : x ∈ slice_to l stop -> x ∈ l.
Proof.
  unfold slice_to. destruct (stop <? 0); intros Hx;
    apply elem_of_take in Hx as (i & Hi & _); eapply list_elem_of_lookup_2; eassumption.
Qed.

End Slicing.

(** ** The prediction handler *)

Section Predict.
Implicit Types request : PredictionRequest.t.

(** C1: the response of [predict] holds one prediction and one confidence
    score per input record, position by position, so both lists have the
    length of [request.data]; for an empty [data] both are empty. *)
Theorem predict_one_output_per_record request :
  length (PredictionResponse.predictions (Ml.predict request))
    = length (PredictionRequest.data request) /\
  length (PredictionResponse.confidence_scores (Ml.predict request))
    = length (PredictionRequest.data request) /\
  (forall i : nat,
     is_Some (PredictionResponse.predictions (Ml.predict request) !! i)
       <-> is_Some (PredictionRequest.data request !! i)) /\
  (forall i : nat,
     is_Some (PredictionResponse.confidence_scores (Ml.predict request) !! i)
       <-> is_Some (PredictionRequest.data request !! i)) /\
  (forall name threshold,
     PredictionResponse.predictions
       (Ml.predict (PredictionRequest.mk [] name threshold)) = [] /\
     PredictionResponse.confidence_scores
       (Ml.predict (PredictionRequest.mk [] name threshold)) = []).
Proof.
  unfold Ml.predict; simpl.
  repeat split.
  - apply length_map.
  - apply length_map.
  - intros Hi. apply lookup_lt_is_Some in Hi. rewrite length_map in Hi.
    now apply lookup_lt_is_Some.
  - intros Hi. apply lookup_lt_is_Some. rewrite length_map.
    now apply lookup_lt_is_Some.
  - intros Hi. apply lookup_lt_is_Some in Hi. rewrite length_map in Hi.
    now apply lookup_lt_is_Some.
  - intros Hi. apply lookup_lt_is_Some. rewrite length_map.
    now apply lookup_lt_is_Some.
Qed.

(** C4, as the code has it: [processing_time_ms] is the literal [100.0] for
    every request, the same for any two requests, whatever they hold and
    however long the handler runs. *)
Theorem predict_processing_time_is_literal request :
  PredictionResponse.processing_time_ms (Ml.predict request) = 100.0%float /\
  forall other : PredictionRequest.t,
    PredictionResponse.processing_time_ms (Ml.predict other)
      = PredictionResponse.processing_time_ms (Ml.predict request).
Proof.
  split.
  - reflexivity.
  - intros other. reflexivity.
Qed.

(** C4 refuted: a request of one record and a request of three records are
    both reported to have taken the same [100.0] ms, and one constant is the
    reported time of every request, so the field measures nothing. *)
Lemma predict_processing_time_not_measured :
  PredictionResponse.processing_time_ms (Ml.predict sample_prediction_request)
    = 100.0%float /\
  PredictionResponse.processing_time_ms (Ml.predict multiple_data_points_request)
    = 100.0%float /\
  exists c : float,
    forall request, PredictionResponse.processing_time_ms (Ml.predict request) = c.
Proof.
  split; [reflexivity | split; [reflexivity |]].
  exists 100.0%float. intros request. reflexivity.
Qed.

End Predict.

(** ** The model catalog *)

Section ModelInfo.
Implicit Types name : string.

Lemma models_lookup_other name :
  name <> "default" -> name <> "recommendation" -> Ml.models !! name = None.
Proof.
  intros Hd Hr. unfold Ml.models.
  rewrite lookup_insert_ne by congruence.
  rewrite lookup_insert_ne by congruence.
  apply lookup_empty.
Qed.

(** C7: [get_model_info] returns the catalog entry of ["default"] and of
    ["recommendation"], each carrying its own name, and for every other name
    raises the 404 error whose detail is [Model '<name>' not found] with the
    requested name in it. *)
Theorem get_model_info_found_or_404 name :
  Ml.get_model_info "default" = inr Ml.model_default /\
  Ml.get_model_info "recommendation" = inr Ml.model_recommendation /\
  getitem Ml.model_default "name" = inr (VStr "default") /\
  getitem Ml.model_recommendation "name" = inr (VStr "recommendation") /\
  (name <> "default" -> name <> "recommendation" ->
   Ml.get_model_info name
     = inl (HTTPException 404 ("Model '" +:+ name +:+ "' not found"))).
Proof.
  repeat split; try reflexivity.
  intros Hd Hr. unfold Ml.get_model_info.
  rewrite models_lookup_other by assumption. reflexivity.
Qed.

Lemma get_model_info_found_or_404_witness :
  Ml.get_model_info "default" = inr Ml.model_default /\
  Ml.get_model_info "nonexistent"
    = inl (HTTPException 404 "Model 'nonexistent' not found").
Proof.
  split.
  - exact (proj1 (get_model_info_found_or_404 "nonexistent")).
  - apply (get_model_info_found_or_404 "nonexistent"); discriminate.
Defined.

End ModelInfo.

(** ** The recommendation handlers *)

Section GetRecommendations.
Implicit Types request : RecommendationRequest.t.

(** The candidates of a category before truncation. *)
Lemma get_recommendations_total_count request :
  RecommendationResponse.total_count (Recommendations.get_recommendations request)
    = if String.eqb (RecommendationRequest.category request) "food" then 3
      else if String.eqb (RecommendationRequest.category request) "place" then 2
      else if String.eqb (RecommendationRequest.category request) "activity" then 2
      else 0.
Proof.
  unfold Recommendations.get_recommendations; simpl.
  repeat case_match; reflexivity.
Qed.

(** C2: for a limit that is not negative the response holds at most [limit]
    recommendations; [total_count] is the size of the category's catalog
    before truncation (3 for food, 2 for place, 2 for activity, 0 for any
    other category) and so at least the number of recommendations returned;
    a limit of 0 gives no recommendation. *)
Theorem get_recommendations_truncated request :
  0 <= RecommendationRequest.limit request ->
  Z.of_nat (length (RecommendationResponse.recommendations
                      (Recommendations.get_recommendations request)))
    <= RecommendationRequest.limit request /\
  (RecommendationRequest.category request = "food" ->
   RecommendationResponse.total_count
     (Recommendations.get_recommendations request) = 3) /\
  (RecommendationRequest.category request = "place" ->
   RecommendationResponse.total_count
     (Recommendations.get_recommendations request) = 2) /\
  (RecommendationRequest.category request = "activity" ->
   RecommendationResponse.total_count
     (Recommendations.get_recommendations request) = 2) /\
  (RecommendationRequest.category request <> "food" ->
   RecommendationRequest.category request <> "place" ->
   RecommendationRequest.category request <> "activity" ->
   RecommendationResponse.total_count
     (Recommendations.get_recommendations request) = 0) /\
  Z.of_nat (length (RecommendationResponse.recommendations
                      (Recommendations.get_recommendations request)))
    <= RecommendationResponse.total_count
         (Recommendations.get_recommendations request) /\
  (RecommendationRequest.limit request = 0 ->
   RecommendationResponse.recommendations
     (Recommendations.get_recommendations request) = []).
Proof.
  intros Hlimit.
  split; [apply slice_to_length_le; assumption |].
  rewrite get_recommendations_total_count.
  repeat split.
  - intros ->. reflexivity.
  - intros ->. reflexivity.
  - intros ->. reflexivity.
  - intros Hf Hp Ha.
    apply String.eqb_neq in Hf, Hp, Ha. rewrite Hf, Hp, Ha. reflexivity.
  - unfold Recommendations.get_recommendations; simpl.
    pose proof (slice_to_length_le_all
      (if String.eqb (RecommendationRequest.category request) "food"
       then Recommendations.food_items
       else if String.eqb (RecommendationRequest.category request) "place"
       then Recommendations.place_items
       else if String.eqb (RecommendationRequest.category request) "activity"
       then Recommendations.activity_items else [])
      (RecommendationRequest.limit request)) as Hle.
    repeat case_match; simpl in *; lia.
  - intros Hzero. unfold Recommendations.get_recommendations; simpl.
    rewrite Hzero. apply slice_to_zero.
Qed.

Lemma get_recommendations_truncated_witness :
  Z.of_nat (length (RecommendationResponse.recommendations
                      (Recommendations.get_recommendations
                         (RecommendationRequest.mk None "food" None 2)))) <= 2 /\
  RecommendationResponse.total_count
    (Recommendations.get_recommendations
       (RecommendationRequest.mk None "food" None 2)) = 3.
Proof.
  assert (Hlimit : 0 <= RecommendationRequest.limit
                          (RecommendationRequest.mk None "food" None 2))
    by (simpl; lia).
  pose proof (get_recommendations_truncated
                (RecommendationRequest.mk None "food" None 2) Hlimit)
    as (Hlen & Hfood & _).
  split; [exact Hlen | apply Hfood; reflexivity].
Defined.

(** C9: the request type puts no bound on [limit], and a negative limit is
    taken as a slice bound counted from the end: for category food and limit
    -1 the handler returns the first two of the three food items with
    [total_count] 3, more items than the limit. *)
Theorem get_recommendations_negative_limit user_id context :
  RecommendationRequest.limit
    (RecommendationRequest.mk user_id "food" context (-1)) = -1 /\
  RecommendationResponse.recommendations
    (Recommendations.get_recommendations
       (RecommendationRequest.mk user_id "food" context (-1)))
    = take 2 Recommendations.food_items /\
  RecommendationResponse.total_count
    (Recommendations.get_recommendations
       (RecommendationRequest.mk user_id "food" context (-1))) = 3 /\
  ~ Z.of_nat (length (RecommendationResponse.recommendations
                        (Recommendations.get_recommendations
                           (RecommendationRequest.mk user_id "food" context (-1)))))
      <= RecommendationRequest.limit
           (RecommendationRequest.mk user_id "food" context (-1)).
Proof.
  repeat split. simpl. lia.
Qed.

End GetRecommendations.

Section GetTrending.
Implicit Types (limit : Z) (category : string) (item : TrendingItem.t).

(** Filtering [trending_items] by the empty string keeps nothing. *)
Lemma trending_items_none_uncategorised :
  List.filter (fun item => String.eqb (TrendingItem.category item) "")
    Recommendations.trending_items = [].
Proof. reflexivity. Qed.

Lemma get_trending_nonempty_category category limit :
  category <> "" ->
  TrendingResponse.trending (Recommendations.get_trending (Some category) limit)
    = slice_to
        (List.filter (fun item => String.eqb (TrendingItem.category item) category)
           Recommendations.trending_items)
        limit.
Proof.
  intros Hne. unfold Recommendations.get_trending.
  cbn [TrendingResponse.trending Recommendations.optional_str truthy].
  apply String.eqb_neq in Hne. rewrite Hne. reflexivity.
Qed.

(** C10: [get_trending] takes the empty string for no category: nothing is
    filtered and the three trending items are returned up to [limit], where
    an exact match against the empty string would leave none; for a category
    that is not empty only the items whose category is exactly that string
    are returned. *)
Theorem get_trending_empty_category_unfiltered limit :
  Recommendations.get_trending (Some "") limit
    = Recommendations.get_trending None limit /\
  TrendingResponse.trending (Recommendations.get_trending (Some "") limit)
    = slice_to Recommendations.trending_items limit /\
  (3 <= limit ->
   TrendingResponse.trending (Recommendations.get_trending (Some "") limit)
     = Recommendations.trending_items) /\
  List.filter (fun item => String.eqb (TrendingItem.category item) "")
    Recommendations.trending_items = [] /\
  (forall category, category <> "" ->
     TrendingResponse.trending (Recommendations.get_trending (Some category) limit)
       = slice_to
           (List.filter
              (fun item => String.eqb (TrendingItem.category item) category)
              Recommendations.trending_items)
           limit) /\
  (forall category item, category <> "" ->
     item ∈ TrendingResponse.trending
              (Recommendations.get_trending (Some category) limit) ->
     item ∈ Recommendations.trending_items /\
     TrendingItem.category item = category).
Proof.
  split; [reflexivity |]. split; [reflexivity |].
  split; [intros Hlimit; apply (slice_to_all Recommendations.trending_items); simpl; lia |].
  split; [reflexivity |].
  split; [intros category Hne; apply get_trending_nonempty_category; assumption |].
  intros category item Hne Hin.
  rewrite get_trending_nonempty_category in Hin by assumption.
  apply slice_to_elem_of, list_elem_of_In, filter_In in Hin as [Hin Hcat].
  split; [apply list_elem_of_In; assumption | apply String.eqb_eq; assumption].
Qed.

Lemma get_trending_empty_category_unfiltered_witness :
  TrendingResponse.trending (Recommendations.get_trending (Some "") 10)
    = Recommendations.trending_items /\
  TrendingResponse.trending (Recommendations.get_trending (Some "food") 10)
    = [TrendingItem.mk "t1" "Trendy Cafe" "food" 98 "rising"].
Proof.
  pose proof (get_trending_empty_category_unfiltered 10)
    as (_ & _ & Hall & _ & Hfilter & _).
  split.
  - apply Hall. lia.
  - rewrite (Hfilter "food") by discriminate. reflexivity.
Defined.

End GetTrending.

(** ** Settings resolution *)

Section Methods.
Context {A B : Type}.
Implicit Types (m : Settings.method A) (k : A -> Settings.method B).
Implicit Types (self : Settings.t) (e : exn).

Lemma bind_returns m k self x self' :
  m self = (inr x, self') -> (m ≫= k) self = k x self'.
Proof. intros Hm. unfold mbind, Settings.method_bind. rewrite Hm. reflexivity. Qed.

Lemma bind_raises m k self e self' :
  m self = (inl e, self') -> (m ≫= k) self = (inl e, self').
Proof. intros Hm. unfold mbind, Settings.method_bind. rewrite Hm. reflexivity. Qed.

End Methods.

Section ApplyYamlConfig.
Variable config_dir : string -> yaml_file.
Implicit Types (config_path : string) (self : Settings.t).

(** A path without a file leaves the object as it is. *)
Lemma apply_yaml_config_absent config_path self :
  config_dir config_path = Absent ->
  Settings._apply_yaml_config config_dir config_path self = (inr (), self).
Proof. intros Hf. unfold Settings._apply_yaml_config. rewrite Hf. reflexivity. Qed.

(** A file [yaml.safe_load] rejects makes the method raise. *)
Lemma apply_yaml_config_malformed config_path self :
  config_dir config_path = Malformed ->
  Settings._apply_yaml_config config_dir config_path self = (inl YAMLError, self).
Proof. intros Hf. unfold Settings._apply_yaml_config. rewrite Hf. reflexivity. Qed.

(** The method either leaves the object as it is (also when it raises) or
    returns after assigning [HOST] and [PORT]. *)
Lemma apply_yaml_config_effect config_path self :
  snd (Settings._apply_yaml_config config_dir config_path self) = self \/
  exists host port,
    Settings._apply_yaml_config config_dir config_path self
      = (inr (), Settings.with_PORT port (Settings.with_HOST host self)).
Proof.
  unfold Settings._apply_yaml_config, Settings.and_then, Settings.lift, Settings.raise,
    Settings.ret, Settings.attr, Settings.assign, mbind, Settings.method_bind, mret,
    Settings.method_ret.
  repeat case_match; simplify_eq/=; eauto.
  (* [get] cannot find its method for "port" after finding it for "host". *)
  match goal with
  | Hhost : py_get ?v _ _ = inr _, Hport : py_get ?v _ _ = inl _ |- _ =>
      destruct v; discriminate
  end.
Qed.

End ApplyYamlConfig.

(** ** The frame of [_apply_yaml_config] *)

Section Frame.
Variable config_dir : string -> yaml_file.
Implicit Types (config_path : string) (self : Settings.t).

(** C6: whatever the file at the path holds and whatever the object holds,
    [_apply_yaml_config] leaves every field other than [HOST] and [PORT] as
    it was, whether it returns or raises. *)
Theorem apply_yaml_config_changes_host_port_only config_path self :
  Settings.same_but_HOST_PORT self
    (Settings.after (Settings._apply_yaml_config config_dir config_path) self).
Proof.
  unfold Settings.after.
  destruct (apply_yaml_config_effect config_dir config_path self)
    as [-> | (host & port & ->)].
  - unfold Settings.same_but_HOST_PORT. repeat split.
  - unfold Settings.same_but_HOST_PORT. repeat split.
Qed.

(** A file that also names a log level under [server.smart]: the host and
    the port are taken from it, the log level is not. *)
Example apply_yaml_config_ignores_log_level :
  Settings._apply_yaml_config smart_base_yml "base.yml" Settings.defaults
    = (inr (),
       Settings.with_PORT (VInt 5001)
         (Settings.with_HOST (VStr "127.0.0.1") Settings.defaults)) /\
  Settings.LOG_LEVEL
    (Settings.after (Settings._apply_yaml_config smart_base_yml "base.yml")
       Settings.defaults) = "INFO".
Proof. split; reflexivity. Qed.

End Frame.

(** ** The constructor *)

Section Init.
Variable py_int : string -> option Z.
Variable py_str : value -> string.
Variable config_dir : string -> yaml_file.
Variable environ : gmap string string.
Implicit Types (self : Settings.t) (base : exn + Settings.t).

#[local] Abbreviation apply_yaml := (Settings._apply_yaml_config config_dir).
#[local] Abbreviation load_yaml := (Settings._load_yaml_config py_int py_str config_dir environ).
#[local] Abbreviation init := (Settings.__init__ py_int py_str config_dir environ).
#[local] Abbreviation getenv := (Settings.getenv environ).

Lemma getenv_set key default v : environ !! key = Some v -> getenv key default = v.
Proof. intros Hkey. unfold Settings.getenv. rewrite Hkey. reflexivity. Qed.

(** An exception of the base file leaves [_load_yaml_config] at once. *)
Lemma load_yaml_config_base_raises self e s1 :
  apply_yaml "base.yml" self = (inl e, s1) ->
  load_yaml self = (inl e, s1).
Proof. intros Hbase. unfold Settings._load_yaml_config. apply bind_raises, Hbase. Qed.

(** So does an exception of the file of the environment. *)
Lemma load_yaml_config_env_raises self s1 e s2 :
  apply_yaml "base.yml" self = (inr (), s1) ->
  apply_yaml (getenv "PYTHON_ENV" (Settings.ENVIRONMENT s1) +:+ ".yml") s1 = (inl e, s2) ->
  load_yaml self = (inl e, s2).
Proof.
  intros Hbase Henv. unfold Settings._load_yaml_config.
  erewrite bind_returns by exact Hbase.
  erewrite bind_returns by reflexivity.
  apply bind_raises, Henv.
Qed.

(** After the two files, the environment variables decide: [HOST] is
    assigned, then [int] either raises or the remaining three fields are
    assigned. *)
Lemma load_yaml_config_env_stage self s1 s2 :
  apply_yaml "base.yml" self = (inr (), s1) ->
  apply_yaml (getenv "PYTHON_ENV" (Settings.ENVIRONMENT s1) +:+ ".yml") s1 = (inr (), s2) ->
  load_yaml self =
    match py_int (getenv "PORT" (py_str (Settings.PORT s2))) with
    | None =>
        (inl ValueError,
         Settings.with_HOST (from_option VStr (Settings.HOST s2) (environ !! "HOST")) s2)
    | Some n =>
        (inr (),
         Settings.with_LOG_LEVEL (getenv "LOG_LEVEL" (Settings.LOG_LEVEL s2))
           (Settings.with_ENVIRONMENT (getenv "PYTHON_ENV" (Settings.ENVIRONMENT s2))
              (Settings.with_PORT (VInt n)
                 (Settings.with_HOST
                    (from_option VStr (Settings.HOST s2) (environ !! "HOST")) s2))))
    end.
Proof.
  intros Hbase Henv. unfold Settings._load_yaml_config.
  erewrite bind_returns by exact Hbase.
  erewrite bind_returns by reflexivity.
  erewrite bind_returns by exact Henv.
  do 3 (erewrite bind_returns by reflexivity).
  unfold Settings.int; cbn [Settings.PORT Settings.with_HOST].
  destruct (py_int (getenv "PORT" (py_str (Settings.PORT s2)))) as [n |].
  - erewrite bind_returns by reflexivity. reflexivity.
  - erewrite bind_raises by reflexivity. reflexivity.
Qed.

(** A base file [yaml.safe_load] rejects makes the constructor raise. *)
Lemma init_raises_on_malformed_base self :
  config_dir "base.yml" = Malformed ->
  init (inr self) = inl YAMLError.
Proof.
  intros Hfile. unfold Settings.__init__.
  rewrite (load_yaml_config_base_raises self YAMLError self); [reflexivity |].
  apply apply_yaml_config_malformed, Hfile.
Qed.

(** So does a rejected file of the environment, once the base file is
    accepted. *)
Lemma init_raises_on_malformed_env self s1 :
  apply_yaml "base.yml" self = (inr (), s1) ->
  config_dir (getenv "PYTHON_ENV" (Settings.ENVIRONMENT s1) +:+ ".yml") = Malformed ->
  init (inr self) = inl YAMLError.
Proof.
  intros Hbase Hfile. unfold Settings.__init__.
  rewrite (load_yaml_config_env_raises self s1 YAMLError s1 Hbase); [reflexivity |].
  apply apply_yaml_config_malformed, Hfile.
Qed.

(** C8: when [PORT] is set in the environment to a string [int] refuses, the
    constructor raises: no [Settings] object is built, whatever the defaults,
    the files and the other variables are. *)
Theorem init_fails_on_non_numeric_port base v :
  environ !! "PORT" = Some v ->
  py_int v = None ->
  exists e, Settings.__init__ py_int py_str config_dir environ base = inl e.
Proof.
  intros Hport Hint.
  destruct base as [e | self]; [exists e; reflexivity |].
  unfold Settings.__init__.
  destruct (apply_yaml "base.yml" self) as [[e | []] s1] eqn:Hbase.
  { rewrite (load_yaml_config_base_raises _ _ _ Hbase). eauto. }
  destruct (apply_yaml (getenv "PYTHON_ENV" (Settings.ENVIRONMENT s1) +:+ ".yml") s1)
    as [[e | []] s2] eqn:Henv.
  { rewrite (load_yaml_config_env_raises _ _ _ _ Hbase Henv). eauto. }
  rewrite (load_yaml_config_env_stage _ _ _ Hbase Henv).
  rewrite (getenv_set _ _ _ Hport), Hint. eauto.
Qed.

(** A constructor that returns has seen both files accepted and [int]
    succeed; the object is the one of the last file with the four
    assignments made. *)
Lemma init_returns_inv self s :
  init (inr self) = inr s ->
  exists s1 s2 n,
    apply_yaml "base.yml" self = (inr (), s1) /\
    apply_yaml (getenv "PYTHON_ENV" (Settings.ENVIRONMENT s1) +:+ ".yml") s1
      = (inr (), s2) /\
    py_int (getenv "PORT" (py_str (Settings.PORT s2))) = Some n /\
    s = Settings.with_LOG_LEVEL (getenv "LOG_LEVEL" (Settings.LOG_LEVEL s2))
          (Settings.with_ENVIRONMENT (getenv "PYTHON_ENV" (Settings.ENVIRONMENT s2))
             (Settings.with_PORT (VInt n)
                (Settings.with_HOST
                   (from_option VStr (Settings.HOST s2) (environ !! "HOST")) s2))).
Proof.
  unfold Settings.__init__.
  destruct (apply_yaml "base.yml" self) as [[e | []] s1] eqn:Hbase.
  { rewrite (load_yaml_config_base_raises _ _ _ Hbase). discriminate. }
  destruct (apply_yaml (getenv "PYTHON_ENV" (Settings.ENVIRONMENT s1) +:+ ".yml") s1)
    as [[e | []] s2] eqn:Henv.
  { rewrite (load_yaml_config_env_raises _ _ _ _ Hbase Henv). discriminate. }
  rewrite (load_yaml_config_env_stage _ _ _ Hbase Henv).
  destruct (py_int (getenv "PORT" (py_str (Settings.PORT s2)))) as [n |] eqn:Hint;
    [| discriminate].
  intros [= <-]. exists s1, s2, n. repeat split; assumption.
Qed.

(** C5: the environment variables are applied last, after the two files.
    Whenever the constructor returns, each of [HOST], [PORT], [PYTHON_ENV] and
    [LOG_LEVEL] that is set decides its field ([PORT] through [int]),
    whatever the files and the defaults gave; a variable that is not set
    leaves the field as the two files left it, the file of the environment
    applied after [base.yml].  And the constructor does return when the two
    files are accepted and [int] accepts the port: in particular with [PORT]
    set to a numeral, whatever port a file or the defaults hold. *)
Theorem init_environment_wins self :
  (forall s,
     Settings.__init__ py_int py_str config_dir environ (inr self) = inr s ->
     (forall host, environ !! "HOST" = Some host -> Settings.HOST s = VStr host) /\
     (forall v, environ !! "PORT" = Some v ->
        exists n, py_int v = Some n /\ Settings.PORT s = VInt n) /\
     (forall env, environ !! "PYTHON_ENV" = Some env -> Settings.ENVIRONMENT s = env) /\
     (forall level, environ !! "LOG_LEVEL" = Some level -> Settings.LOG_LEVEL s = level) /\
     exists s1 s2,
       Settings._apply_yaml_config config_dir "base.yml" self = (inr (), s1) /\
       Settings._apply_yaml_config config_dir
         (Settings.getenv environ "PYTHON_ENV" (Settings.ENVIRONMENT s1) +:+ ".yml") s1
         = (inr (), s2) /\
       (environ !! "HOST" = None -> Settings.HOST s = Settings.HOST s2) /\
       (environ !! "PORT" = None ->
          exists n, py_int (py_str (Settings.PORT s2)) = Some n /\
                    Settings.PORT s = VInt n) /\
       (environ !! "PYTHON_ENV" = None ->
          Settings.ENVIRONMENT s = Settings.ENVIRONMENT s2) /\
       (environ !! "LOG_LEVEL" = None -> Settings.LOG_LEVEL s = Settings.LOG_LEVEL s2)) /\
  (forall s1 s2 n,
     Settings._apply_yaml_config config_dir "base.yml" self = (inr (), s1) ->
     Settings._apply_yaml_config config_dir
       (Settings.getenv environ "PYTHON_ENV" (Settings.ENVIRONMENT s1) +:+ ".yml") s1
       = (inr (), s2) ->
     py_int (Settings.getenv environ "PORT" (py_str (Settings.PORT s2))) = Some n ->
     exists s,
       Settings.__init__ py_int py_str config_dir environ (inr self) = inr s /\
       Settings.PORT s = VInt n) /\
  (forall s1 s2 v n,
     Settings._apply_yaml_config config_dir "base.yml" self = (inr (), s1) ->
     Settings._apply_yaml_config config_dir
       (Settings.getenv environ "PYTHON_ENV" (Settings.ENVIRONMENT s1) +:+ ".yml") s1
       = (inr (), s2) ->
     environ !! "PORT" = Some v ->
     py_int v = Some n ->
     exists s,
       Settings.__init__ py_int py_str config_dir environ (inr self) = inr s /\
       Settings.PORT s = VInt n).
Proof.
  assert (Hreturns : forall s1 s2 n,
    apply_yaml "base.yml" self = (inr (), s1) ->
    apply_yaml (getenv "PYTHON_ENV" (Settings.ENVIRONMENT s1) +:+ ".yml") s1
      = (inr (), s2) ->
    py_int (getenv "PORT" (py_str (Settings.PORT s2))) = Some n ->
    exists s, init (inr self) = inr s /\ Settings.PORT s = VInt n).
  { intros s1 s2 n Hbase Henv Hint. unfold Settings.__init__.
    rewrite (load_yaml_config_env_stage _ _ _ Hbase Henv), Hint.
    eexists. split; reflexivity. }
  split; [| split].
  - intros s Hinit.
    apply init_returns_inv in Hinit as (s1 & s2 & n & Hbase & Henv & Hint & ->).
    cbn [Settings.HOST Settings.PORT Settings.ENVIRONMENT Settings.LOG_LEVEL
         Settings.with_HOST Settings.with_PORT Settings.with_ENVIRONMENT
         Settings.with_LOG_LEVEL].
    split; [intros host Hset; rewrite Hset; reflexivity |].
    split.
    { intros v Hset. exists n. rewrite (getenv_set _ _ _ Hset) in Hint. auto. }
    split; [intros env Hset; apply getenv_set, Hset |].
    split; [intros level Hset; apply getenv_set, Hset |].
    exists s1, s2. split; [exact Hbase |]. split; [exact Henv |].
    split; [intros Hunset; rewrite Hunset; reflexivity |].
    split.
    { intros Hunset. exists n. split; [| reflexivity].
      unfold Settings.getenv in Hint. rewrite Hunset in Hint. exact Hint. }
    split; intros Hunset; unfold Settings.getenv; rewrite Hunset; reflexivity.
  - exact Hreturns.
  - intros s1 s2 v n Hbase Henv Hset Hint.
    apply (Hreturns s1 s2 n Hbase Henv).
    rewrite (getenv_set _ _ _ Hset). exact Hint.
Qed.

End Init.

(** ** The constructor on sample surroundings *)

Section Samples.

(** C3, where the code departs from it: with no file at all the constructor
    returns the defaults, but a [base.yml] that [yaml.safe_load] rejects makes
    it raise [YAMLError] instead of being taken for an empty configuration. *)
Theorem init_raises_on_malformed_yaml :
  Settings.__init__ decimal_int scalar_str no_files ∅ (inr Settings.defaults)
    = inr Settings.defaults /\
  Settings.__init__ decimal_int scalar_str invalid_base_yml ∅ (inr Settings.defaults)
    = inl YAMLError.
Proof. split; vm_compute; reflexivity. Qed.

Lemma init_environment_wins_witness :
  (exists s,
     Settings.__init__ decimal_int scalar_str smart_base_yml
       {[ "PORT" := "9999"; "HOST" := "0.0.0.0" ]} (inr Settings.defaults) = inr s /\
     Settings.PORT s = VInt 9999 /\
     Settings.HOST s = VStr "0.0.0.0") /\
  (exists s,
     Settings.__init__ decimal_int scalar_str smart_base_yml
       {[ "HOST" := "0.0.0.0" ]} (inr Settings.defaults) = inr s /\
     Settings.PORT s = VInt 5001 /\
     Settings.HOST s = VStr "0.0.0.0").
Proof.
  split.
  - destruct (init_environment_wins decimal_int scalar_str smart_base_yml
                {[ "PORT" := "9999"; "HOST" := "0.0.0.0" ]} Settings.defaults)
      as (Hwins & _ & Hport).
    destruct (Hport
                (Settings.with_PORT (VInt 5001)
                   (Settings.with_HOST (VStr "127.0.0.1") Settings.defaults))
                (Settings.with_PORT (VInt 5001)
                   (Settings.with_HOST (VStr "127.0.0.1") Settings.defaults))
                "9999" 9999)
      as (s & Hinit & Hn); try (vm_compute; reflexivity).
    exists s. split; [exact Hinit |]. split; [exact Hn |].
    apply (Hwins s Hinit). vm_compute; reflexivity.
  - destruct (init_environment_wins decimal_int scalar_str smart_base_yml
                {[ "HOST" := "0.0.0.0" ]} Settings.defaults)
      as (Hwins & Hreturns & _).
    destruct (Hreturns
                (Settings.with_PORT (VInt 5001)
                   (Settings.with_HOST (VStr "127.0.0.1") Settings.defaults))
                (Settings.with_PORT (VInt 5001)
                   (Settings.with_HOST (VStr "127.0.0.1") Settings.defaults))
                5001)
      as (s & Hinit & Hn); try (vm_compute; reflexivity).
    exists s. split; [exact Hinit |]. split; [exact Hn |].
    apply (Hwins s Hinit). vm_compute; reflexivity.
Defined.

Lemma init_fails_on_non_numeric_port_witness :
  exists e,
    Settings.__init__ decimal_int scalar_str smart_base_yml
      {[ "PORT" := "abc" ]} (inr Settings.defaults) = inl e.
Proof.
  apply (init_fails_on_non_numeric_port decimal_int scalar_str smart_base_yml
           {[ "PORT" := "abc" ]} (inr Settings.defaults) "abc");
    vm_compute; reflexivity.
Defined.

End Samples.

(** * Further properties *)

(** ** What a configuration file does to the object *)

Section ApplyYamlConfigShapes.
Variable config_dir : string -> yaml_file.
Implicit Types (config_path : string) (self : Settings.t).
Implicit Types (entries server smart : list (value * value)).

Lemma dict_lookup_some_nonempty k entries v :
  dict_lookup k entries = Some v -> truthy (VDict entries) = true.
Proof. destruct entries; [discriminate | reflexivity]. Qed.

(** A file with a mapping under [server.smart]: [HOST] and [PORT] take the
    values under [host] and [port]; a key the mapping lacks leaves the field
    as it was. *)
Theorem apply_yaml_config_mapping config_path self entries server smart :
  config_dir config_path = Loaded (VDict entries) ->
  dict_lookup "server" entries = Some (VDict server) ->
  dict_lookup "smart" server = Some (VDict smart) ->
  Settings._apply_yaml_config config_dir config_path self
    = (inr (),
       Settings.with_PORT
         (from_option id (Settings.PORT self) (dict_lookup "port" smart))
         (Settings.with_HOST
            (from_option id (Settings.HOST self) (dict_lookup "host" smart))
            self)).
Proof.
  intros Hfile Hserver Hsmart.
  unfold Settings._apply_yaml_config. rewrite Hfile.
  unfold Settings.and_then, Settings.lift, Settings.ret, Settings.attr,
    Settings.assign, mbind, Settings.method_bind, mret, Settings.method_ret.
  rewrite (dict_lookup_some_nonempty _ _ _ Hserver).
  cbn [py_in getitem]. rewrite Hserver.
  cbn [py_in getitem]. rewrite Hsmart.
  rewrite !bool_decide_eq_true_2 by eauto.
  reflexivity.
Qed.

(** A document that is empty or false, a mapping without the key [server],
    and a [server] mapping without the key [smart] are all passed over: the
    method returns and the object is as before. *)
Theorem apply_yaml_config_passes_over config_path self config :
  config_dir config_path = Loaded config ->
  truthy config = false \/
  (exists entries, config = VDict entries /\ dict_lookup "server" entries = None) \/
  (exists entries server,
     config = VDict entries /\
     dict_lookup "server" entries = Some (VDict server) /\
     dict_lookup "smart" server = None) ->
  Settings._apply_yaml_config config_dir config_path self = (inr (), self).
Proof.
  intros Hfile Hshape.
  unfold Settings._apply_yaml_config. rewrite Hfile.
  unfold Settings.and_then, Settings.lift, Settings.ret, Settings.attr,
    Settings.assign, mbind, Settings.method_bind, mret, Settings.method_ret.
  destruct Hshape as [Hfalse | [(entries & -> & Hserver) | (entries & server & -> & Hserver & Hsmart)]].
  - rewrite Hfalse. reflexivity.
  - destruct (truthy (VDict entries)); [| reflexivity].
    cbn [py_in]. rewrite Hserver.
    rewrite bool_decide_eq_false_2 by (intros [? ?]; discriminate). reflexivity.
  - rewrite (dict_lookup_some_nonempty _ _ _ Hserver).
    cbn [py_in getitem]. rewrite Hserver.
    rewrite bool_decide_eq_true_2 by eauto.
    cbn [py_in]. rewrite Hsmart.
    rewrite bool_decide_eq_false_2 by (intros [? ?]; discriminate). reflexivity.
Qed.

(** A [smart] entry that is not a mapping is not passed over: the method
    raises [AttributeError], having assigned nothing. *)
Theorem apply_yaml_config_smart_not_mapping config_path self entries server v :
  config_dir config_path = Loaded (VDict entries) ->
  dict_lookup "server" entries = Some (VDict server) ->
  dict_lookup "smart" server = Some v ->
  (forall smart, v <> VDict smart) ->
  Settings._apply_yaml_config config_dir config_path self = (inl AttributeError, self).
Proof.
  intros Hfile Hserver Hsmart Hv.
  unfold Settings._apply_yaml_config. rewrite Hfile.
  unfold Settings.and_then, Settings.lift, Settings.ret, Settings.attr,
    Settings.assign, mbind, Settings.method_bind, mret, Settings.method_ret.
  rewrite (dict_lookup_some_nonempty _ _ _ Hserver).
  cbn [py_in getitem]. rewrite Hserver.
  cbn [py_in getitem]. rewrite Hsmart.
  rewrite !bool_decide_eq_true_2 by eauto.
  destruct v; try reflexivity.
  exfalso. eapply Hv. reflexivity.
Qed.

(** A document that is a number or [true], and a [server] entry that is
    [None], a boolean or a number, make the method raise [TypeError], the
    object as before. *)
Theorem apply_yaml_config_not_container config_path self config :
  config_dir config_path = Loaded config ->
  (truthy config = true /\
   match config with VBool _ | VInt _ | VFloat _ => True | _ => False end) \/
  (exists entries v,
     config = VDict entries /\
     dict_lookup "server" entries = Some v /\
     match v with VNone | VBool _ | VInt _ | VFloat _ => True | _ => False end) ->
  Settings._apply_yaml_config config_dir config_path self = (inl TypeError, self).
Proof.
  intros Hfile Hshape.
  unfold Settings._apply_yaml_config. rewrite Hfile.
  unfold Settings.and_then, Settings.lift, Settings.ret, Settings.attr,
    Settings.assign, mbind, Settings.method_bind, mret, Settings.method_ret.
  destruct Hshape as [[Htrue Hkind] | (entries & v & -> & Hserver & Hkind)].
  - rewrite Htrue. destruct config; try contradiction; reflexivity.
  - rewrite (dict_lookup_some_nonempty _ _ _ Hserver).
    cbn [py_in getitem]. rewrite Hserver.
    rewrite bool_decide_eq_true_2 by eauto.
    destruct v; try contradiction; reflexivity.
Qed.

End ApplyYamlConfigShapes.

Lemma apply_yaml_config_mapping_witness :
  Settings._apply_yaml_config layered_yml "production.yml" Settings.defaults
    = (inr (), Settings.with_PORT (VInt 8080) Settings.defaults).
Proof.
  exact (apply_yaml_config_mapping layered_yml "production.yml" Settings.defaults
           _ _ _ eq_refl eq_refl eq_refl).
Defined.

Lemma apply_yaml_config_passes_over_witness :
  Settings._apply_yaml_config servers_yml "base.yml" Settings.defaults
    = (inr (), Settings.defaults).
Proof.
  eapply (apply_yaml_config_passes_over servers_yml "base.yml" Settings.defaults).
  - reflexivity.
  - right. left. eexists. split; reflexivity.
Defined.

Lemma apply_yaml_config_smart_not_mapping_witness :
  Settings._apply_yaml_config smart_scalar_yml "base.yml" Settings.defaults
    = (inl AttributeError, Settings.defaults).
Proof.
  eapply (apply_yaml_config_smart_not_mapping smart_scalar_yml "base.yml"
            Settings.defaults _ _ (VStr "enabled")).
  - reflexivity.
  - reflexivity.
  - reflexivity.
  - intros smart; discriminate.
Defined.

Lemma apply_yaml_config_not_container_witness :
  Settings._apply_yaml_config server_number_yml "base.yml" Settings.defaults
    = (inl TypeError, Settings.defaults).
Proof.
  eapply (apply_yaml_config_not_container server_number_yml "base.yml"
            Settings.defaults).
  - reflexivity.
  - right. exists [(VStr "server", VInt 8080)], (VInt 8080).
    split; [reflexivity |]. split; [reflexivity | exact I].
Defined.


(** ** What the constructor resolves, and what it leaves alone *)

Ltac unfold_method :=
  unfold Settings.and_then, Settings.lift, Settings.raise, Settings.ret,
    Settings.attr, Settings.assign, mbind, Settings.method_bind, mret,
    Settings.method_ret.

Lemma same_but_resolved_refl s : same_but_resolved s s.
Proof. unfold same_but_resolved. repeat split. Qed.

Lemma same_but_resolved_trans s1 s2 s3 :
  same_but_resolved s1 s2 -> same_but_resolved s2 s3 -> same_but_resolved s1 s3.
Proof.
  unfold same_but_resolved. intros H12 H23.
  destruct_and!. repeat split; etrans; eassumption.
Qed.

Lemma same_but_resolved_assigned s host port env level :
  same_but_resolved s
    (Settings.with_LOG_LEVEL level
       (Settings.with_ENVIRONMENT env
          (Settings.with_PORT port (Settings.with_HOST host s)))).
Proof. unfold same_but_resolved. repeat split. Qed.

Lemma same_but_resolved_with_HOST s host :
  same_but_resolved s (Settings.with_HOST host s).
Proof. unfold same_but_resolved. repeat split. Qed.

(** Whatever a file holds, [_apply_yaml_config] keeps the environment name,
    the log level and the fields no step assigns. *)
Lemma apply_yaml_config_keeps config_dir config_path self r s1 :
  Settings._apply_yaml_config config_dir config_path self = (r, s1) ->
  same_but_resolved self s1 /\
  Settings.ENVIRONMENT s1 = Settings.ENVIRONMENT self /\
  Settings.LOG_LEVEL s1 = Settings.LOG_LEVEL self.
Proof.
  intros Hrun.
  destruct (apply_yaml_config_effect config_dir config_path self)
    as [Hsame | (host & port & Hassigned)].
  - rewrite Hrun in Hsame. simpl in Hsame. subst s1.
    split; [apply same_but_resolved_refl | split; reflexivity].
  - rewrite Hrun in Hassigned. injection Hassigned as _ ->.
    split; [unfold same_but_resolved; repeat split | split; reflexivity].
Qed.

Section InitResolved.
Variable py_int : string -> option Z.
Variable py_str : value -> string.
Variable config_dir : string -> yaml_file.
Variable environ : gmap string string.
Implicit Types (self s : Settings.t).

#[local] Abbreviation apply_yaml' := (Settings._apply_yaml_config config_dir).
#[local] Abbreviation load_yaml' := (Settings._load_yaml_config py_int py_str config_dir environ).
#[local] Abbreviation init' := (Settings.__init__ py_int py_str config_dir environ).
#[local] Abbreviation getenv' := (Settings.getenv environ).

(** Of the sixteen fields, [_load_yaml_config] can change four: whether it
    returns or raises, every field other than [HOST], [PORT], [ENVIRONMENT]
    and [LOG_LEVEL] is as the base constructor left it, and so it is in the
    object the constructor returns. *)
Theorem load_yaml_config_changes_four_fields self :
  same_but_resolved self
    (Settings.after (Settings._load_yaml_config py_int py_str config_dir environ) self) /\
  (forall s,
     Settings.__init__ py_int py_str config_dir environ (inr self) = inr s ->
     same_but_resolved self s).
Proof.
  assert (Hafter : same_but_resolved self (Settings.after load_yaml' self)).
  { unfold Settings.after.
    destruct (apply_yaml' "base.yml" self) as [[e | []] s1] eqn:Hbase.
    { rewrite (load_yaml_config_base_raises _ _ _ _ _ _ _ Hbase).
      apply (apply_yaml_config_keeps _ _ _ _ _ Hbase). }
    pose proof (apply_yaml_config_keeps _ _ _ _ _ Hbase) as (Hkeep1 & _ & _).
    destruct (apply_yaml' (getenv' "PYTHON_ENV" (Settings.ENVIRONMENT s1) +:+ ".yml") s1)
      as [[e | []] s2] eqn:Henv.
    { rewrite (load_yaml_config_env_raises _ _ _ _ _ _ _ _ Hbase Henv).
      eapply same_but_resolved_trans; [exact Hkeep1 |].
      apply (apply_yaml_config_keeps _ _ _ _ _ Henv). }
    pose proof (apply_yaml_config_keeps _ _ _ _ _ Henv) as (Hkeep2 & _ & _).
    rewrite (load_yaml_config_env_stage _ _ _ _ _ _ _ Hbase Henv).
    eapply same_but_resolved_trans; [exact Hkeep1 |].
    eapply same_but_resolved_trans; [exact Hkeep2 |].
    destruct (py_int _); simpl.
    - apply same_but_resolved_assigned.
    - apply same_but_resolved_with_HOST. }
  split; [exact Hafter |].
  intros s Hinit. unfold Settings.__init__, Settings.after in *.
  destruct (load_yaml' self) as [[e | []] s']; [discriminate |].
  injection Hinit as <-. exact Hafter.
Qed.

(** A constructor that returns leaves an integer in [PORT], whatever kind of
    value a file or the base constructor put there; with [PORT] set in the
    environment it is [int] of that string. *)
Theorem init_port_is_int self s :
  Settings.__init__ py_int py_str config_dir environ (inr self) = inr s ->
  exists n,
    Settings.PORT s = VInt n /\
    (forall v, environ !! "PORT" = Some v -> py_int v = Some n).
Proof.
  intros Hinit.
  apply init_returns_inv in Hinit as (s1 & s2 & n & _ & _ & Hint & ->).
  exists n. split; [reflexivity |].
  intros v Hset. rewrite (getenv_set _ _ _ _ Hset) in Hint. exact Hint.
Qed.

(** No file reaches [ENVIRONMENT] or [LOG_LEVEL]: in the object the
    constructor returns they are the values of [PYTHON_ENV] and [LOG_LEVEL]
    where set, and the values of the base constructor otherwise. *)
Theorem init_environment_and_log_level self s :
  Settings.__init__ py_int py_str config_dir environ (inr self) = inr s ->
  Settings.ENVIRONMENT s = Settings.getenv environ "PYTHON_ENV" (Settings.ENVIRONMENT self) /\
  Settings.LOG_LEVEL s = Settings.getenv environ "LOG_LEVEL" (Settings.LOG_LEVEL self).
Proof.
  intros Hinit.
  apply init_returns_inv in Hinit as (s1 & s2 & n & Hbase & Henv & _ & ->).
  pose proof (apply_yaml_config_keeps _ _ _ _ _ Hbase) as (_ & He1 & Hl1).
  pose proof (apply_yaml_config_keeps _ _ _ _ _ Henv) as (_ & He2 & Hl2).
  cbn. rewrite He2, He1, Hl2, Hl1. split; reflexivity.
Qed.

End InitResolved.

Lemma load_yaml_config_changes_four_fields_witness :
  same_but_resolved Settings.defaults
    (Settings.with_PORT (VInt 9999)
       (Settings.with_HOST (VStr "127.0.0.1") Settings.defaults)).
Proof.
  apply (load_yaml_config_changes_four_fields decimal_int scalar_str smart_base_yml
           {[ "PORT" := "9999" ]} Settings.defaults).
  vm_compute; reflexivity.
Defined.

Lemma init_port_is_int_witness :
  exists n,
    Settings.PORT (Settings.with_PORT (VInt 5001)
                     (Settings.with_HOST (VStr "127.0.0.1") Settings.defaults))
      = VInt n /\
    (forall v, (∅ : gmap string string) !! "PORT" = Some v -> decimal_int v = Some n).
Proof.
  apply (init_port_is_int decimal_int scalar_str smart_base_yml ∅ Settings.defaults).
  vm_compute; reflexivity.
Defined.

Lemma init_environment_and_log_level_witness :
  Settings.ENVIRONMENT
    (Settings.with_LOG_LEVEL "DEBUG"
       (Settings.with_ENVIRONMENT "production"
          (Settings.with_PORT (VInt 8080)
             (Settings.with_HOST (VStr "0.0.0.0") Settings.defaults))))
    = Settings.getenv {[ "PYTHON_ENV" := "production"; "LOG_LEVEL" := "DEBUG" ]}
        "PYTHON_ENV" "development" /\
  Settings.LOG_LEVEL
    (Settings.with_LOG_LEVEL "DEBUG"
       (Settings.with_ENVIRONMENT "production"
          (Settings.with_PORT (VInt 8080)
             (Settings.with_HOST (VStr "0.0.0.0") Settings.defaults))))
    = Settings.getenv {[ "PYTHON_ENV" := "production"; "LOG_LEVEL" := "DEBUG" ]}
        "LOG_LEVEL" "INFO".
Proof.
  apply (init_environment_and_log_level decimal_int scalar_str layered_yml
           {[ "PYTHON_ENV" := "production"; "LOG_LEVEL" := "DEBUG" ]}
           Settings.defaults).
  vm_compute; reflexivity.
Defined.

(** ** The order of the sources *)

Section Layers.
Variable py_int : string -> option Z.
Variable py_str : value -> string.
Variable config_dir : string -> yaml_file.
Variable environ : gmap string string.
Implicit Types (self s : Settings.t).
Implicit Types (base_entries base_server base_smart : list (value * value)).
Implicit Types (env_entries env_server env_smart : list (value * value)).

(** Running [_apply_yaml_config] on a file with a mapping under
    [server.smart]. *)
Ltac run_mapping Hfile Hserver Hsmart :=
  unfold Settings._apply_yaml_config; rewrite Hfile; unfold_method;
  rewrite (dict_lookup_some_nonempty _ _ _ Hserver);
  cbn [py_in getitem]; rewrite Hserver;
  cbn [py_in getitem]; rewrite Hsmart;
  rewrite !bool_decide_eq_true_2 by eauto;
  reflexivity.

(** Each source overrides the ones before it: with a mapping under
    [server.smart] in both files, [HOST] is the variable [HOST] if set, else
    the [host] of the file of the environment if it has one, else the [host]
    of [base.yml] if it has one, else the value of the base constructor; and
    [PORT] is [int] of the string chosen the same way. *)
Theorem init_sources_in_order self
    base_entries base_server base_smart env_entries env_server env_smart n :
  config_dir "base.yml" = Loaded (VDict base_entries) ->
  dict_lookup "server" base_entries = Some (VDict base_server) ->
  dict_lookup "smart" base_server = Some (VDict base_smart) ->
  config_dir (Settings.getenv environ "PYTHON_ENV" (Settings.ENVIRONMENT self) +:+ ".yml")
    = Loaded (VDict env_entries) ->
  dict_lookup "server" env_entries = Some (VDict env_server) ->
  dict_lookup "smart" env_server = Some (VDict env_smart) ->
  py_int
    (Settings.getenv environ "PORT"
       (py_str
          (from_option id
             (from_option id (Settings.PORT self) (dict_lookup "port" base_smart))
             (dict_lookup "port" env_smart)))) = Some n ->
  exists s,
    Settings.__init__ py_int py_str config_dir environ (inr self) = inr s /\
    Settings.HOST s
      = from_option VStr
          (from_option id
             (from_option id (Settings.HOST self) (dict_lookup "host" base_smart))
             (dict_lookup "host" env_smart))
          (environ !! "HOST") /\
    Settings.PORT s = VInt n.
Proof.
  intros Hbfile Hbserver Hbsmart Hefile Heserver Hesmart Hint.
  set (s1 := Settings.with_PORT
               (from_option id (Settings.PORT self) (dict_lookup "port" base_smart))
               (Settings.with_HOST
                  (from_option id (Settings.HOST self) (dict_lookup "host" base_smart))
                  self)).
  assert (Hbase : Settings._apply_yaml_config config_dir "base.yml" self = (inr (), s1))
    by run_mapping Hbfile Hbserver Hbsmart.
  set (s2 := Settings.with_PORT
               (from_option id (Settings.PORT s1) (dict_lookup "port" env_smart))
               (Settings.with_HOST
                  (from_option id (Settings.HOST s1) (dict_lookup "host" env_smart))
                  s1)).
  assert (Henv : Settings._apply_yaml_config config_dir
                   (Settings.getenv environ "PYTHON_ENV" (Settings.ENVIRONMENT s1) +:+ ".yml")
                   s1 = (inr (), s2))
    by (change (Settings.ENVIRONMENT s1) with (Settings.ENVIRONMENT self);
        run_mapping Hefile Heserver Hesmart).
  unfold Settings.__init__.
  rewrite (load_yaml_config_env_stage _ _ _ _ _ _ _ Hbase Henv).
  change (Settings.PORT s2)
    with (from_option id
            (from_option id (Settings.PORT self) (dict_lookup "port" base_smart))
            (dict_lookup "port" env_smart)).
  rewrite Hint.
  eexists. split; [reflexivity |]. split; reflexivity.
Qed.

End Layers.

Lemma init_sources_in_order_witness :
  exists s,
    Settings.__init__ decimal_int scalar_str layered_yml
      {[ "PYTHON_ENV" := "production" ]} (inr Settings.defaults) = inr s /\
    Settings.HOST s = VStr "0.0.0.0" /\
    Settings.PORT s = VInt 8080.
Proof.
  destruct (init_sources_in_order decimal_int scalar_str layered_yml
              {[ "PYTHON_ENV" := "production" ]} Settings.defaults
              [ (VStr "server",
                  VDict [ (VStr "smart",
                    VDict [ (VStr "host", VStr "0.0.0.0"); (VStr "port", VInt 5000) ]) ]) ]
              [ (VStr "smart",
                  VDict [ (VStr "host", VStr "0.0.0.0"); (VStr "port", VInt 5000) ]) ]
              [ (VStr "host", VStr "0.0.0.0"); (VStr "port", VInt 5000) ]
              [ (VStr "server",
                  VDict [ (VStr "smart", VDict [ (VStr "port", VInt 8080) ]) ]) ]
              [ (VStr "smart", VDict [ (VStr "port", VInt 8080) ]) ]
              [ (VStr "port", VInt 8080) ]
              8080)
    as (s & Hinit & Hhost & Hport); try (vm_compute; reflexivity).
  exists s. split; [exact Hinit |]. split; [| exact Hport].
  rewrite Hhost. vm_compute; reflexivity.
Defined.

(** ** The files the constructor reads *)

Section TwoFiles.
Variable py_int : string -> option Z.
Variable py_str : value -> string.
Variable environ : gmap string string.
Implicit Types (config_dir : string -> yaml_file) (self : Settings.t).

Lemma apply_yaml_config_same_file config_dir config_dir' config_path self :
  config_dir' config_path = config_dir config_path ->
  Settings._apply_yaml_config config_dir' config_path self
    = Settings._apply_yaml_config config_dir config_path self.
Proof. intros Hfile. unfold Settings._apply_yaml_config. rewrite Hfile. reflexivity. Qed.

(** The constructor reads [base.yml] and the file named after the
    environment, and no other: two [config] directories that agree on these
    two names give the same outcome, whatever else they hold. *)
Theorem init_reads_two_files config_dir config_dir' self :
  config_dir' "base.yml" = config_dir "base.yml" ->
  config_dir' (Settings.getenv environ "PYTHON_ENV" (Settings.ENVIRONMENT self) +:+ ".yml")
    = config_dir (Settings.getenv environ "PYTHON_ENV" (Settings.ENVIRONMENT self) +:+ ".yml") ->
  Settings.__init__ py_int py_str config_dir' environ (inr self)
    = Settings.__init__ py_int py_str config_dir environ (inr self).
Proof.
  intros Hbase Henv.
  unfold Settings.__init__. f_equal.
  pose proof (apply_yaml_config_same_file config_dir config_dir' "base.yml" self Hbase)
    as Hrun.
  destruct (Settings._apply_yaml_config config_dir "base.yml" self)
    as [[e | []] s1] eqn:Hbase1.
  { rewrite (load_yaml_config_base_raises _ _ _ _ _ _ _ Hrun).
    rewrite (load_yaml_config_base_raises _ _ _ _ _ _ _ Hbase1). reflexivity. }
  pose proof (apply_yaml_config_keeps _ _ _ _ _ Hbase1) as (_ & Hname & _).
  rewrite <- Hname in Henv.
  pose proof (apply_yaml_config_same_file config_dir config_dir' _ s1 Henv) as Hrun2.
  destruct (Settings._apply_yaml_config config_dir
              (Settings.getenv environ "PYTHON_ENV" (Settings.ENVIRONMENT s1) +:+ ".yml") s1)
    as [[e | []] s2] eqn:Henv1.
  { rewrite (load_yaml_config_env_raises _ _ _ _ _ _ _ _ Hrun Hrun2).
    rewrite (load_yaml_config_env_raises _ _ _ _ _ _ _ _ Hbase1 Henv1). reflexivity. }
  rewrite (load_yaml_config_env_stage _ _ _ _ _ _ _ Hrun Hrun2).
  rewrite (load_yaml_config_env_stage _ _ _ _ _ _ _ Hbase1 Henv1). reflexivity.
Qed.

End TwoFiles.

Lemma init_reads_two_files_witness :
  Settings.__init__ decimal_int scalar_str stray_file_yml
    {[ "PYTHON_ENV" := "production" ]} (inr Settings.defaults)
  = Settings.__init__ decimal_int scalar_str smart_base_yml
      {[ "PYTHON_ENV" := "production" ]} (inr Settings.defaults).
Proof.
  apply (init_reads_two_files decimal_int scalar_str
           {[ "PYTHON_ENV" := "production" ]} smart_base_yml stray_file_yml
           Settings.defaults);
    vm_compute; reflexivity.
Defined.

(** ** The start scripts *)

Section StartScripts.
Variable py_int : string -> option Z.
Variable py_str : value -> string.
Variable config_dir : string -> yaml_file.
Variable environ : gmap string string.
Implicit Types (base : exn + Settings.t) (s : Settings.t).

(** [start.py] and [dev.py] fix the environment name: the settings the server
    starts with have [ENVIRONMENT] "production" under [start.py] and
    "development" under [dev.py], whatever [PYTHON_ENV] held before and
    whatever the base constructor and the files gave. *)
Theorem start_scripts_fix_environment base s :
  (Scripts.start_settings py_int py_str config_dir environ base = inr s ->
   Settings.ENVIRONMENT s = "production") /\
  (Scripts.dev_settings py_int py_str config_dir environ base = inr s ->
   Settings.ENVIRONMENT s = "development").
Proof.
  unfold Scripts.start_settings, Scripts.dev_settings.
  split; intros Hinit; (destruct base as [e | self]; [discriminate |]);
    apply init_returns_inv in Hinit as (s1 & s2 & n & _ & _ & _ & ->);
    cbn [Settings.ENVIRONMENT Settings.with_LOG_LEVEL Settings.with_ENVIRONMENT];
    apply getenv_set, lookup_insert_eq.
Qed.

End StartScripts.

Lemma start_scripts_fix_environment_witness :
  Settings.ENVIRONMENT
    (Settings.with_ENVIRONMENT "production"
       (Settings.with_PORT (VInt 8080)
          (Settings.with_HOST (VStr "0.0.0.0") Settings.defaults)))
    = "production".
Proof.
  apply (start_scripts_fix_environment decimal_int scalar_str layered_yml
           {[ "PYTHON_ENV" := "staging" ]} (inr Settings.defaults)).
  vm_compute; reflexivity.
Defined.

(** ** The model catalog, listed and fetched *)

Section ModelCatalog.
Implicit Types (name : string) (info model : value).

(** A name [get_model_info] knows is one of the two. *)
Lemma get_model_info_known name info :
  Ml.get_model_info name = inr info ->
  (name = "default" /\ info = Ml.model_default) \/
  (name = "recommendation" /\ info = Ml.model_recommendation).
Proof.
  intros Hinfo.
  destruct (decide (name = "default")) as [-> | Hd].
  { left. split; [reflexivity |].
    assert (Hd : Ml.get_model_info "default" = inr Ml.model_default) by reflexivity.
    congruence. }
  destruct (decide (name = "recommendation")) as [-> | Hr].
  { right. split; [reflexivity |].
    assert (Hr : Ml.get_model_info "recommendation" = inr Ml.model_recommendation)
      by reflexivity.
    congruence. }
  unfold Ml.get_model_info in Hinfo.
  rewrite models_lookup_other in Hinfo by assumption. discriminate.
Qed.

(** [list_models] and [get_model_info] describe the same catalog: every
    listed model can be fetched by its name and the fetched entry repeats its
    name, version, type and status; and every name that can be fetched is the
    name of a listed model and of the entry returned. *)
Theorem list_models_agrees_with_get_model_info :
  (forall model, model ∈ MlCatalog.listed_models ->
     exists name info,
       getitem model "name" = inr (VStr name) /\
       Ml.get_model_info name = inr info /\
       forall key, key ∈ ["name"; "version"; "type"; "status"] ->
         getitem info key = getitem model key) /\
  (forall name info, Ml.get_model_info name = inr info ->
     getitem info "name" = inr (VStr name) /\
     exists model,
       model ∈ MlCatalog.listed_models /\ getitem model "name" = inr (VStr name)).
Proof.
  split.
  - intros model Hin. vm_compute in Hin.
    apply elem_of_cons in Hin as [-> | Hin];
      [| apply elem_of_cons in Hin as [-> | Hin]; [| inversion Hin]].
    + exists "default", Ml.model_default.
      split; [reflexivity |]. split; [reflexivity |].
      intros key Hkey. repeat (apply elem_of_cons in Hkey as [-> | Hkey]; [reflexivity |]).
      inversion Hkey.
    + exists "recommendation", Ml.model_recommendation.
      split; [reflexivity |]. split; [reflexivity |].
      intros key Hkey. repeat (apply elem_of_cons in Hkey as [-> | Hkey]; [reflexivity |]).
      inversion Hkey.
  - intros name info Hinfo.
    apply get_model_info_known in Hinfo as [[-> ->] | [-> ->]].
    + split; [reflexivity |].
      eexists. split; [apply list_elem_of_here | reflexivity].
    + split; [reflexivity |].
      eexists. split; [apply list_elem_of_further, list_elem_of_here | reflexivity].
Qed.

Lemma list_models_agrees_with_get_model_info_witness :
  getitem Ml.model_recommendation "name" = inr (VStr "recommendation") /\
  exists model,
    model ∈ MlCatalog.listed_models /\
    getitem model "name" = inr (VStr "recommendation").
Proof.
  apply (proj2 list_models_agrees_with_get_model_info "recommendation").
  reflexivity.
Defined.

End ModelCatalog.

(** ** What [predict] looks at *)

Section PredictInputs.
Implicit Types r : PredictionRequest.t.

Lemma map_const_length {A B C : Type} (x : C) (l1 : list A) (l2 : list B) :
  length l1 = length l2 -> map (fun _ => x) l1 = map (fun _ => x) l2.
Proof.
  revert l2. induction l1 as [| a l1 IH]; intros [| b l2] Hlen; try discriminate.
  - reflexivity.
  - simpl. f_equal. apply IH. now injection Hlen.
Qed.

(** [predict] looks at the number of records and at the model name only:
    two requests with as many records and the same model name get the same
    response, whatever the records hold and whatever the confidence
    thresholds are; and a model name the catalog does not know is answered
    like any other. *)
Theorem predict_ignores_features_and_threshold r1 r2 :
  length (PredictionRequest.data r1) = length (PredictionRequest.data r2) ->
  PredictionRequest.model_name r1 = PredictionRequest.model_name r2 ->
  Ml.predict r1 = Ml.predict r2.
Proof.
  intros Hlen Hname. unfold Ml.predict.
  rewrite Hname.
  rewrite (map_const_length [("result", VStr "placeholder")] _ _ Hlen).
  rewrite (map_const_length 0.95%float _ _ Hlen).
  reflexivity.
Qed.

Lemma predict_ignores_features_and_threshold_witness :
  Ml.predict sample_prediction_request
    = Ml.predict
        (PredictionRequest.mk [ [("feature1", VStr "unknown")] ] "default" 0.99%float).
Proof.
  apply predict_ignores_features_and_threshold; reflexivity.
Defined.

End PredictInputs.

(** ** More on slicing *)

Section SlicingMore.
Context {A : Type}.
Implicit Types (l : list A) (stop : Z).

Lemma slice_to_take l stop :
  exists n : nat, slice_to l stop = take n l.
Proof. unfold slice_to. destruct (stop <? 0); eauto. Qed.

Lemma slice_to_length l stop :
  Z.of_nat (length (slice_to l stop))
    = if stop <? 0
      then Z.max 0 (Z.of_nat (length l) + stop)
      else Z.min stop (Z.of_nat (length l)).
Proof.
  unfold slice_to.
  destruct (Z.ltb_spec stop 0); rewrite length_take; lia.
Qed.

Lemma slice_to_prefix_mono l stop1 stop2 :
  0 <= stop1 -> stop1 <= stop2 -> slice_to l stop1 `prefix_of` slice_to l stop2.
Proof.
  intros Hnonneg Hle. rewrite !slice_to_nonneg by lia.
  replace (Z.to_nat stop1) with (Z.to_nat stop1 `min` Z.to_nat stop2)%nat by lia.
  rewrite <- take_take. apply prefix_take.
Qed.

Lemma slice_to_lookup l stop (i : nat) x :
  slice_to l stop !! i = Some x -> l !! i = Some x.
Proof.
  destruct (slice_to_take l stop) as [n ->].
  intros Hi. apply lookup_take_Some in Hi as [Hi _]. exact Hi.
Qed.

End SlicingMore.

(** ** More on [get_recommendations] *)

Section GetRecommendationsMore.
Implicit Types (request : RecommendationRequest.t) (item : RecommendationItem.t).

(** The candidates of the category of a request, before truncation. *)
Lemma get_recommendations_candidates request :
  exists candidates,
    (candidates = Recommendations.food_items /\
       RecommendationRequest.category request = "food" \/
     candidates = Recommendations.place_items /\
       RecommendationRequest.category request = "place" \/
     candidates = Recommendations.activity_items /\
       RecommendationRequest.category request = "activity" \/
     candidates = []) /\
    RecommendationResponse.recommendations (Recommendations.get_recommendations request)
      = slice_to candidates (RecommendationRequest.limit request) /\
    RecommendationResponse.total_count (Recommendations.get_recommendations request)
      = Z.of_nat (length candidates).
Proof.
  unfold Recommendations.get_recommendations; cbn [RecommendationResponse.recommendations
    RecommendationResponse.total_count].
  destruct (String.eqb_spec (RecommendationRequest.category request) "food");
    [eexists; split; [left; split; [reflexivity | assumption] | split; reflexivity] |].
  destruct (String.eqb_spec (RecommendationRequest.category request) "place");
    [eexists; split; [right; left; split; [reflexivity | assumption] | split; reflexivity] |].
  destruct (String.eqb_spec (RecommendationRequest.category request) "activity");
    [eexists; split; [right; right; left; split; [reflexivity | assumption]
                     | split; reflexivity] |].
  eexists; split; [right; right; right; reflexivity | split; reflexivity].
Qed.

(** Whatever the limit, negative ones included, every recommendation
    returned carries the category that was asked for. *)
Theorem get_recommendations_items_in_category request item :
  item ∈ RecommendationResponse.recommendations
           (Recommendations.get_recommendations request) ->
  RecommendationItem.category item = RecommendationRequest.category request.
Proof.
  destruct (get_recommendations_candidates request)
    as (candidates & Hcases & -> & _).
  intros Hin. apply slice_to_elem_of in Hin.
  destruct Hcases as [[-> ->] | [[-> ->] | [[-> ->] | ->]]].
  - repeat (apply elem_of_cons in Hin as [-> | Hin]; [reflexivity |]). inversion Hin.
  - repeat (apply elem_of_cons in Hin as [-> | Hin]; [reflexivity |]). inversion Hin.
  - repeat (apply elem_of_cons in Hin as [-> | Hin]; [reflexivity |]). inversion Hin.
  - inversion Hin.
Qed.

(** The number of recommendations returned, for every limit: the smaller of
    the limit and [total_count] when the limit is not negative, and
    [total_count + limit], or none when that is negative, when it is. *)
Theorem get_recommendations_count request :
  Z.of_nat (length (RecommendationResponse.recommendations
                      (Recommendations.get_recommendations request)))
    = if RecommendationRequest.limit request <? 0
      then Z.max 0
             (RecommendationResponse.total_count
                (Recommendations.get_recommendations request)
              + RecommendationRequest.limit request)
      else Z.min (RecommendationRequest.limit request)
             (RecommendationResponse.total_count
                (Recommendations.get_recommendations request)).
Proof.
  destruct (get_recommendations_candidates request)
    as (candidates & _ & -> & ->).
  apply slice_to_length.
Qed.

(** Raising the limit only appends: the answer to a limit that is not
    negative is a prefix of the answer to any larger limit, for the same
    category. *)
Theorem get_recommendations_limit_monotone user_id category context limit1 limit2 :
  0 <= limit1 -> limit1 <= limit2 ->
  RecommendationResponse.recommendations
    (Recommendations.get_recommendations
       (RecommendationRequest.mk user_id category context limit1))
  `prefix_of`
  RecommendationResponse.recommendations
    (Recommendations.get_recommendations
       (RecommendationRequest.mk user_id category context limit2)).
Proof.
  intros Hnonneg Hle.
  unfold Recommendations.get_recommendations;
    cbn [RecommendationResponse.recommendations RecommendationRequest.category
         RecommendationRequest.limit].
  apply slice_to_prefix_mono; assumption.
Qed.

Lemma catalog_scores_descend (candidates : list RecommendationItem.t) :
  candidates = Recommendations.food_items \/
  candidates = Recommendations.place_items \/
  candidates = Recommendations.activity_items \/
  candidates = [] ->
  forall (i j : nat) a b, (i <= j)%nat ->
    candidates !! i = Some a -> candidates !! j = Some b ->
    (RecommendationItem.score b <=? RecommendationItem.score a)%float = true.
Proof.
  intros Hcases i j a b Hij Ha Hb.
  destruct Hcases as [-> | [-> | [-> | ->]]].
  - destruct i as [| [| [| i]]]; destruct j as [| [| [| j]]];
      try lia; simplify_eq/=; reflexivity.
  - destruct i as [| [| i]]; destruct j as [| [| j]];
      try lia; simplify_eq/=; reflexivity.
  - destruct i as [| [| i]]; destruct j as [| [| j]];
      try lia; simplify_eq/=; reflexivity.
  - discriminate.
Qed.

(** The recommendations come best first: an item is never followed by one
    with a higher score, so a truncated answer keeps the best-scored
    candidates. *)
Theorem get_recommendations_best_first request (i j : nat) a b :
  (i <= j)%nat ->
  RecommendationResponse.recommendations
    (Recommendations.get_recommendations request) !! i = Some a ->
  RecommendationResponse.recommendations
    (Recommendations.get_recommendations request) !! j = Some b ->
  (RecommendationItem.score b <=? RecommendationItem.score a)%float = true.
Proof.
  destruct (get_recommendations_candidates request)
    as (candidates & Hcases & -> & _).
  intros Hij Ha Hb.
  apply slice_to_lookup in Ha, Hb.
  eapply (catalog_scores_descend candidates); [| exact Hij | exact Ha | exact Hb].
  destruct Hcases as [[-> _] | [[-> _] | [[-> _] | ->]]]; auto.
Qed.

End GetRecommendationsMore.

Lemma get_recommendations_items_in_category_witness :
  RecommendationItem.category
    (RecommendationItem.mk "5" "Museum of Art" "place" 0.87
       (Some "World-class art collection") None)
    = RecommendationRequest.category (RecommendationRequest.mk None "place" None 5).
Proof.
  apply (get_recommendations_items_in_category
           (RecommendationRequest.mk None "place" None 5)).
  apply list_elem_of_further, list_elem_of_here.
Defined.

Lemma get_recommendations_limit_monotone_witness :
  RecommendationResponse.recommendations
    (Recommendations.get_recommendations
       (RecommendationRequest.mk None "food" None 1))
  `prefix_of`
  RecommendationResponse.recommendations
    (Recommendations.get_recommendations
       (RecommendationRequest.mk None "food" None 3)).
Proof.
  apply get_recommendations_limit_monotone; lia.
Defined.

Lemma get_recommendations_best_first_witness :
  (RecommendationItem.score
     (RecommendationItem.mk "3" "Pizza" "food" 0.82
        (Some "Classic Italian comfort food") None)
   <=? RecommendationItem.score
         (RecommendationItem.mk "1" "Korean BBQ" "food" 0.95
            (Some "Delicious grilled meat with vegetables") None))%float = true.
Proof.
  apply (get_recommendations_best_first sample_recommendation_request 0 2);
    [lia | reflexivity | reflexivity].
Defined.

(** ** Categories listed and categories served *)

Section ListedCategories.
Implicit Types request : RecommendationRequest.t.

(** Every category [get_recommendations] has candidates for is one that
    [get_categories] lists; the list also holds "entertainment" and
    "shopping", for which there is no candidate. *)
Theorem served_categories_are_listed request :
  (0 < RecommendationResponse.total_count (Recommendations.get_recommendations request) ->
   RecommendationRequest.category request ∈ Categories.listed_categories) /\
  (forall category, category ∈ ["entertainment"; "shopping"] ->
     category ∈ Categories.listed_categories /\
     forall user_id context limit,
       RecommendationResponse.recommendations
         (Recommendations.get_recommendations
            (RecommendationRequest.mk user_id category context limit)) = [] /\
       RecommendationResponse.total_count
         (Recommendations.get_recommendations
            (RecommendationRequest.mk user_id category context limit)) = 0).
Proof.
  split.
  - destruct (get_recommendations_candidates request)
      as (candidates & Hcases & _ & ->).
    intros Hpos.
    destruct Hcases as [[_ ->] | [[_ ->] | [[_ ->] | ->]]].
    + vm_compute. apply list_elem_of_here.
    + vm_compute. apply list_elem_of_further, list_elem_of_here.
    + vm_compute. do 2 apply list_elem_of_further. apply list_elem_of_here.
    + simpl in Hpos. lia.
  - intros category Hin.
    apply elem_of_cons in Hin as [-> | Hin];
      [| apply elem_of_cons in Hin as [-> | Hin]; [| inversion Hin]].
    + split; [vm_compute; do 3 apply list_elem_of_further; apply list_elem_of_here |].
      intros user_id context limit. split; [| reflexivity].
      unfold Recommendations.get_recommendations; simpl.
      unfold slice_to. destruct (limit <? 0); apply take_nil.
    + split; [vm_compute; do 4 apply list_elem_of_further; apply list_elem_of_here |].
      intros user_id context limit. split; [| reflexivity].
      unfold Recommendations.get_recommendations; simpl.
      unfold slice_to. destruct (limit <? 0); apply take_nil.
Qed.

Lemma served_categories_are_listed_witness :
  RecommendationRequest.category sample_recommendation_request
    ∈ Categories.listed_categories.
Proof.
  apply (proj1 (served_categories_are_listed sample_recommendation_request)).
  vm_compute; reflexivity.
Defined.

End ListedCategories.

(** ** More on [get_trending] *)

Section GetTrendingMore.
Implicit Types (limit : Z) (category : option string).

(** With a limit of at least 1, the lower bound the query declares, and no
    category, the answer holds the smaller of [limit] and 3 items, so at
    least one; with any category it holds at most [limit] items and at most
    3. *)
Theorem get_trending_count category limit :
  1 <= limit ->
  Z.of_nat (length (TrendingResponse.trending
                      (Recommendations.get_trending None limit)))
    = Z.min limit 3 /\
  Z.of_nat (length (TrendingResponse.trending
                      (Recommendations.get_trending category limit)))
    <= Z.min limit 3.
Proof.
  intros Hlimit. split.
  - unfold Recommendations.get_trending;
      cbn [TrendingResponse.trending Recommendations.optional_str truthy].
    rewrite slice_to_length.
    destruct (Z.ltb_spec limit 0); [lia | reflexivity].
  - unfold Recommendations.get_trending; cbn [TrendingResponse.trending].
    rewrite slice_to_length.
    destruct (Z.ltb_spec limit 0); [lia |].
    assert (Hfilter : (length (List.filter
              (fun item => eq_str (TrendingItem.category item)
                             (Recommendations.optional_str category))
              Recommendations.trending_items) <= 3)%nat)
      by apply (filter_length_le _ Recommendations.trending_items).
    destruct (truthy (Recommendations.optional_str category)); simpl length in *; lia.
Qed.

(** A category that is none of "food", "place" and "activity" (and not
    empty) is no error: the answer is an empty list.  The match is exact, so
    "Food" is such a category. *)
Theorem get_trending_unknown_category name limit :
  name <> "" -> name <> "food" -> name <> "place" -> name <> "activity" ->
  TrendingResponse.trending (Recommendations.get_trending (Some name) limit) = [].
Proof.
  intros Hempty Hfood Hplace Hactivity.
  rewrite get_trending_nonempty_category by assumption.
  unfold Recommendations.trending_items.
  cbn [List.filter TrendingItem.category].
  apply String.eqb_neq in Hfood, Hplace, Hactivity.
  rewrite (String.eqb_sym "food"), Hfood.
  rewrite (String.eqb_sym "place"), Hplace.
  rewrite (String.eqb_sym "activity"), Hactivity.
  unfold slice_to. destruct (limit <? 0); apply take_nil.
Qed.

End GetTrendingMore.

Lemma get_trending_count_witness :
  Z.of_nat (length (TrendingResponse.trending
                      (Recommendations.get_trending None 2))) = Z.min 2 3 /\
  Z.of_nat (length (TrendingResponse.trending
                      (Recommendations.get_trending (Some "food") 2))) <= Z.min 2 3.
Proof.
  apply (get_trending_count (Some "food") 2). lia.
Defined.

Lemma get_trending_unknown_category_witness :
  TrendingResponse.trending (Recommendations.get_trending (Some "Food") 10) = [].
Proof.
  apply get_trending_unknown_category; discriminate.
Defined.

(** ** Strings *)

Lemma append_nil_l (s : string) : "" +:+ s = s.
Proof. reflexivity. Qed.

Lemma append_cons (a : ascii) (s t : string) : String a s +:+ t = String a (s +:+ t).
Proof. reflexivity. Qed.

(** Unfolding [+:+] on a string that starts with known characters. *)
Ltac str_simpl := rewrite ?append_cons, ?append_nil_l; simpl.

Section Strings.
Implicit Types (s t u : string) (c a : ascii).

Lemma append_nil_r s : s +:+ "" = s.
Proof. induction s as [| a s IH]; str_simpl; [reflexivity | now rewrite IH]. Qed.

Lemma append_assoc s t u : (s +:+ t) +:+ u = s +:+ (t +:+ u).
Proof.
  induction s as [| a s IH]; str_simpl; [reflexivity |].
  rewrite ?append_cons. now rewrite IH.
Qed.

Lemma length_append s t :
  String.length (s +:+ t) = (String.length s + String.length t)%nat.
Proof. induction s as [| a s IH]; str_simpl; [reflexivity | now rewrite IH]. Qed.

Lemma substring_all s : String.substring 0 (String.length s) s = s.
Proof. induction s as [| a s IH]; simpl; [reflexivity | now rewrite IH]. Qed.

Lemma substring_append_r s t :
  String.substring (String.length s) (String.length t) (s +:+ t) = t.
Proof. induction s as [| a s IH]; str_simpl; [apply substring_all | exact IH]. Qed.

Lemma substring_split s (n : nat) :
  (n <= String.length s)%nat ->
  s = String.substring 0 n s +:+ String.substring n (String.length s - n) s.
Proof.
  revert n. induction s as [| a s IH]; intros n Hn.
  - destruct n; reflexivity.
  - destruct n as [| n]; simpl.
    + now rewrite substring_all.
    + rewrite append_cons. f_equal. apply IH. simpl in Hn. lia.
Qed.

Lemma endswith_append s t : VerifyLinks.endswith (s +:+ t) t = true.
Proof.
  unfold VerifyLinks.endswith. rewrite length_append.
  apply andb_true_intro. split.
  - apply Nat.leb_le. lia.
  - replace (String.length s + String.length t - String.length t)%nat
      with (String.length s) by lia.
    rewrite substring_append_r. apply String.eqb_refl.
Qed.

Lemma endswith_inv s t :
  VerifyLinks.endswith s t = true ->
  exists stem, s = stem +:+ t /\
    String.length stem = (String.length s - String.length t)%nat.
Proof.
  unfold VerifyLinks.endswith. intros Hends.
  apply andb_prop in Hends as [Hlen Heq].
  apply Nat.leb_le in Hlen. apply String.eqb_eq in Heq.
  exists (String.substring 0 (String.length s - String.length t) s).
  assert (Hsplit := substring_split s (String.length s - String.length t) ltac:(lia)).
  replace (String.length s - (String.length s - String.length t))%nat
    with (String.length t) in Hsplit by lia.
  rewrite Heq in Hsplit. split; [exact Hsplit |].
  apply (f_equal String.length) in Hsplit. rewrite length_append in Hsplit. lia.
Qed.

Lemma occurs_append c s t :
  VerifyLinks.occurs c (s +:+ t) = VerifyLinks.occurs c s || VerifyLinks.occurs c t.
Proof.
  induction s as [| a s IH]; str_simpl; [reflexivity |].
  rewrite IH. apply orb_assoc.
Qed.

(** [split_at] cuts at the first occurrence. *)
Lemma split_at_some c s before after :
  VerifyLinks.split_at c s = Some (before, after) ->
  s = before +:+ String c after /\ VerifyLinks.occurs c before = false.
Proof.
  revert before. induction s as [| a s IH]; intros before Hsplit; simpl in Hsplit.
  - discriminate.
  - destruct (Ascii.eqb_spec a c) as [-> | Hne].
    + injection Hsplit as <- <-. split; reflexivity.
    + destruct (VerifyLinks.split_at c s) as [[b r] |]; [| discriminate].
      injection Hsplit as <- <-.
      destruct (IH b eq_refl) as [-> Hocc].
      split; [reflexivity |]. simpl.
      rewrite Hocc. apply Ascii.eqb_neq in Hne. rewrite Hne. reflexivity.
Qed.

Lemma split_at_first c before after :
  VerifyLinks.occurs c before = false ->
  VerifyLinks.split_at c (before +:+ String c after) = Some (before, after).
Proof.
  induction before as [| a before IH]; str_simpl; intros Hocc.
  - rewrite Ascii.eqb_refl. reflexivity.
  - apply orb_false_elim in Hocc as [Ha Hocc].
    rewrite Ha, (IH Hocc). reflexivity.
Qed.

Lemma split_at_shorter c s before after :
  VerifyLinks.split_at c s = Some (before, after) ->
  (String.length after < String.length s)%nat.
Proof.
  intros Hsplit. apply split_at_some in Hsplit as [-> _].
  rewrite length_append. simpl. lia.
Qed.

End Strings.

(** ** The links of a document *)

Section ExtractLinks.
Implicit Types (s content text link before after rest stem : string).
Implicit Types (fuel : nat).

(** A match at the start of [s] spells out as [[text](link)] followed by the
    rest, with the shape the pattern asks of the two groups. *)
Lemma match_link_some s text link rest :
  VerifyLinks.match_link s = Some ((text, link), rest) ->
  s = "[" +:+ text +:+ "](" +:+ link +:+ ")" +:+ rest /\
  text <> "" /\
  VerifyLinks.occurs "]" text = false /\
  VerifyLinks.occurs ")" link = false /\
  (exists stem, stem <> "" /\ link = stem +:+ ".md").
Proof.
  unfold VerifyLinks.match_link. intros Hmatch.
  destruct s as [| a s1]; [discriminate |].
  destruct (Ascii.eqb_spec a "[") as [-> | _]; [| discriminate].
  destruct (VerifyLinks.split_at "]" s1) as [[group1 [| b s2]] |] eqn:Hsplit1;
    try discriminate.
  destruct (String.eqb_spec group1 "") as [_ | Hnonempty]; [discriminate |].
  destruct (Ascii.eqb_spec b "(") as [-> | _]; [| discriminate].
  destruct (VerifyLinks.split_at ")" s2) as [[group2 rest'] |] eqn:Hsplit2;
    [| discriminate].
  cbn [negb andb] in Hmatch.
  destruct (Nat.leb_spec 4 (String.length group2)) as [Hlen | _]; [| discriminate].
  destruct (VerifyLinks.endswith group2 ".md") eqn:Hends; [| discriminate].
  cbn [andb] in Hmatch. injection Hmatch as -> -> ->.
  apply split_at_some in Hsplit1 as [-> Hocc1].
  apply split_at_some in Hsplit2 as [-> Hocc2].
  apply endswith_inv in Hends as (stem & Hstem & Hstemlen).
  split; [| split; [| split; [| split]]].
  - str_simpl. reflexivity.
  - assumption.
  - assumption.
  - assumption.
  - exists stem. split; [| assumption].
    intros ->. simpl in Hstemlen. lia.
Qed.

Lemma match_link_shorter s groups rest :
  VerifyLinks.match_link s = Some (groups, rest) ->
  (String.length rest < String.length s)%nat.
Proof.
  destruct groups as [text link]. intros Hmatch.
  apply match_link_some in Hmatch as (-> & _).
  rewrite !length_append. simpl. lia.
Qed.

(** A well-formed link at the start of a string is matched. *)
Lemma match_link_link text stem rest :
  text <> "" ->
  VerifyLinks.occurs "]" text = false ->
  stem <> "" ->
  VerifyLinks.occurs ")" stem = false ->
  VerifyLinks.match_link ("[" +:+ text +:+ "](" +:+ stem +:+ ".md)" +:+ rest)
    = Some ((text, stem +:+ ".md"), rest).
Proof.
  intros Htext Hocc1 Hstem Hocc2.
  unfold VerifyLinks.match_link.
  rewrite ?append_cons, ?append_nil_l. cbn [Ascii.eqb Bool.eqb].
  rewrite (split_at_first "]" text _ Hocc1).
  apply String.eqb_neq in Htext. rewrite Htext. cbn [negb andb Ascii.eqb Bool.eqb].
  replace (stem +:+ String "." (String "m" (String "d" (String ")" rest))))
    with ((stem +:+ ".md") +:+ String ")" rest)
    by (rewrite append_assoc; reflexivity).
  rewrite (split_at_first ")" (stem +:+ ".md")).
  2:{ rewrite occurs_append, Hocc2. reflexivity. }
  rewrite endswith_append, andb_true_r.
  destruct (Nat.leb_spec 4 (String.length (stem +:+ ".md"))) as [_ | Hshort];
    [reflexivity |].
  rewrite length_append in Hshort. destruct stem; [contradiction | simpl in Hshort; lia].
Qed.

(** No match starts at a character other than an opening bracket. *)
Lemma match_link_other a s :
  a <> "["%char -> VerifyLinks.match_link (String a s) = None.
Proof.
  intros Hne. unfold VerifyLinks.match_link.
  apply Ascii.eqb_neq in Hne. rewrite Hne. reflexivity.
Qed.

(** Fuel beyond the length of the string changes nothing. *)
Lemma findall_fuel fuel1 fuel2 s :
  (String.length s <= fuel1)%nat -> (String.length s <= fuel2)%nat ->
  VerifyLinks.findall fuel1 s = VerifyLinks.findall fuel2 s.
Proof.
  revert fuel2 s. induction fuel1 as [| fuel1 IH]; intros fuel2 s H1 H2.
  - destruct s; [| simpl in H1; lia]. destruct fuel2; reflexivity.
  - destruct fuel2 as [| fuel2].
    { destruct s; [| simpl in H2; lia]. reflexivity. }
    simpl. destruct (VerifyLinks.match_link s) as [[groups rest] |] eqn:Hmatch.
    + apply match_link_shorter in Hmatch. f_equal. apply IH; lia.
    + destruct s as [| a s]; [reflexivity |]. simpl in H1, H2. apply IH; lia.
Qed.

Lemma extract_links_findall fuel s :
  (String.length s <= fuel)%nat ->
  VerifyLinks.findall fuel s = VerifyLinks.extract_links s.
Proof. intros Hfuel. apply findall_fuel; [assumption | reflexivity]. Qed.

(** The two steps of the search, on [extract_links] itself. *)
Lemma extract_links_match s groups rest :
  VerifyLinks.match_link s = Some (groups, rest) ->
  VerifyLinks.extract_links s = groups :: VerifyLinks.extract_links rest.
Proof.
  intros Hmatch. unfold VerifyLinks.extract_links at 1.
  pose proof (match_link_shorter _ _ _ Hmatch) as Hshorter.
  destruct (String.length s) as [| fuel] eqn:Hlen; [lia |].
  simpl. rewrite Hmatch. f_equal. apply extract_links_findall. lia.
Qed.

Lemma extract_links_skip a s :
  VerifyLinks.match_link (String a s) = None ->
  VerifyLinks.extract_links (String a s) = VerifyLinks.extract_links s.
Proof.
  intros Hnone. unfold VerifyLinks.extract_links at 1.
  cbn [String.length VerifyLinks.findall]. rewrite Hnone.
  apply extract_links_findall. lia.
Qed.

Lemma extract_links_empty : VerifyLinks.extract_links "" = [].
Proof. reflexivity. Qed.

End ExtractLinks.

Section ExtractLinksProperties.
Implicit Types (s content text link before after rest stem : string).

(** What [extract_links] returns is in the document: every pair it returns
    is a text without closing bracket, not empty, and a target without
    closing parenthesis that ends in [.md] after at least one character, and
    the document holds [[text](target)] somewhere. *)
Theorem extract_links_sound content text link :
  (text, link) ∈ VerifyLinks.extract_links content ->
  text <> "" /\
  VerifyLinks.occurs "]" text = false /\
  VerifyLinks.occurs ")" link = false /\
  (exists stem, stem <> "" /\ link = stem +:+ ".md") /\
  exists before after,
    content = before +:+ "[" +:+ text +:+ "](" +:+ link +:+ ")" +:+ after.
Proof.
  remember (String.length content) as n eqn:Hn.
  assert (Hle : (String.length content <= n)%nat) by lia. clear Hn.
  revert content Hle.
  induction n as [| n IH]; intros content Hle Hin.
  - destruct content; [inversion Hin | simpl in Hle; lia].
  - destruct (VerifyLinks.match_link content) as [[[text' link'] rest] |] eqn:Hmatch.
    + rewrite (extract_links_match _ _ _ Hmatch) in Hin.
      pose proof (match_link_shorter _ _ _ Hmatch) as Hshorter.
      apply match_link_some in Hmatch as (Hcontent & Htext & Hocc1 & Hocc2 & Hstem).
      apply elem_of_cons in Hin as [[= -> ->] | Hin].
      * repeat (split; [assumption |]).
        exists "", rest. exact Hcontent.
      * destruct (IH rest ltac:(lia) Hin) as (H1 & H2 & H3 & H4 & before & after & Hrest).
        repeat (split; [assumption |]).
        exists ("[" +:+ text' +:+ "](" +:+ link' +:+ ")" +:+ before), after.
        rewrite Hcontent, Hrest. rewrite !append_assoc. reflexivity.
    + destruct content as [| a content]; [inversion Hin |].
      rewrite (extract_links_skip _ _ Hmatch) in Hin.
      simpl in Hle.
      destruct (IH content ltac:(lia) Hin) as (H1 & H2 & H3 & H4 & before & after & Hrest).
      repeat (split; [assumption |]).
      exists (String a before), after. rewrite Hrest. reflexivity.
Qed.

(** Text without an opening bracket holds no link and is passed over. *)
Lemma extract_links_skip_text before s :
  VerifyLinks.occurs "[" before = false ->
  VerifyLinks.extract_links (before +:+ s) = VerifyLinks.extract_links s.
Proof.
  induction before as [| a before IH]; intros Hocc; [reflexivity |].
  simpl in Hocc. apply orb_false_elim in Hocc as [Ha Hocc].
  rewrite append_cons, extract_links_skip.
  - apply IH, Hocc.
  - apply match_link_other. apply Ascii.eqb_neq. exact Ha.
Qed.

(** A link written out is found: after text without an opening bracket, the
    link [[text](stem.md)] is the first pair returned, and the search goes on
    in what follows it. *)
Theorem extract_links_finds_link before text stem after :
  VerifyLinks.occurs "[" before = false ->
  text <> "" ->
  VerifyLinks.occurs "]" text = false ->
  stem <> "" ->
  VerifyLinks.occurs ")" stem = false ->
  VerifyLinks.extract_links
    (before +:+ "[" +:+ text +:+ "](" +:+ stem +:+ ".md)" +:+ after)
    = (text, stem +:+ ".md") :: VerifyLinks.extract_links after.
Proof.
  intros Hbefore Htext Hocc1 Hstem Hocc2.
  rewrite (extract_links_skip_text before _ Hbefore).
  apply extract_links_match, match_link_link; assumption.
Qed.

(** A document without an opening bracket, the empty one included, has no
    link. *)
Theorem extract_links_no_bracket content :
  VerifyLinks.occurs "[" content = false ->
  VerifyLinks.extract_links content = [].
Proof.
  intros Hocc.
  rewrite <- (append_nil_r content).
  rewrite (extract_links_skip_text content "" Hocc). reflexivity.
Qed.

End ExtractLinksProperties.

Lemma extract_links_sound_witness :
  "guide" <> "" /\
  VerifyLinks.occurs "]" "guide" = false /\
  VerifyLinks.occurs ")" "docs/guide.md" = false /\
  (exists stem, stem <> "" /\ "docs/guide.md" = stem +:+ ".md") /\
  exists before after,
    "See [guide](docs/guide.md) and [logo](logo.png)."
      = before +:+ "[" +:+ "guide" +:+ "](" +:+ "docs/guide.md" +:+ ")" +:+ after.
Proof.
  apply (extract_links_sound "See [guide](docs/guide.md) and [logo](logo.png)."
           "guide" "docs/guide.md").
  vm_compute. apply list_elem_of_here.
Defined.

Lemma extract_links_finds_link_witness :
  VerifyLinks.extract_links
    ("See " +:+ "[" +:+ "guide" +:+ "](" +:+ "docs/guide" +:+ ".md)" +:+ " for more.")
    = [("guide", "docs/guide" +:+ ".md")].
Proof.
  rewrite (extract_links_finds_link "See " "guide" "docs/guide" " for more.");
    [reflexivity | reflexivity | discriminate | reflexivity | discriminate | reflexivity].
Defined.

Lemma extract_links_no_bracket_witness :
  VerifyLinks.extract_links "No links here (see docs/guide.md)." = [].
Proof.
  apply extract_links_no_bracket. reflexivity.
Defined.

(** ** The Markdown files of a directory *)

Section FindMarkdownFiles.
Implicit Types (root p names : list string) (t : VerifyLinks.tree) (file : string).

(** Induction on a tree, with the hypothesis for every subdirectory. *)
Lemma tree_induction (P : VerifyLinks.tree -> Prop) :
  (forall files dirs, Forall (fun d => P d.2) dirs -> P (VerifyLinks.Dir files dirs)) ->
  forall t, P t.
Proof.
  intros HDir. fix IH 1. intros [files dirs]. apply HDir.
  induction dirs as [| [name sub] dirs IHdirs]; constructor.
  - apply IH.
  - apply IHdirs.
Qed.

(** [find_markdown_files] returns the files whose name ends in [.md], at any
    depth, under the path of their directory, and nothing else. *)
Theorem find_markdown_files_spec root t p :
  p ∈ VerifyLinks.find_markdown_files root t <->
  exists names file,
    p = root ++ names ++ [file] /\
    VerifyLinks.has_file t names file /\
    VerifyLinks.endswith file ".md" = true.
Proof.
  revert root p. induction t as [files dirs IH] using tree_induction.
  intros root p. cbn [VerifyLinks.find_markdown_files].
  rewrite list_elem_of_In, in_app_iff, in_map_iff, in_flat_map. split.
  - intros [(file & <- & Hfile) | ([name sub] & Hdir & Hp)].
    + apply filter_In in Hfile as [Hfile Hmd].
      exists [], file. split; [reflexivity |]. split; [| exact Hmd].
      constructor. apply list_elem_of_In, Hfile.
    + rewrite Forall_forall in IH.
      apply list_elem_of_In in Hdir, Hp.
      apply (IH _ Hdir) in Hp as (names & file & -> & Hhas & Hmd).
      exists (name :: names), file.
      split; [rewrite <- app_assoc; reflexivity |].
      split; [| exact Hmd].
      econstructor; eassumption.
  - intros (names & file & -> & Hhas & Hmd).
    inversion Hhas as [files' dirs' file' Hfile | files' dirs' name sub names' file' Hdir Hsub];
      subst.
    + left. exists file. split; [reflexivity |].
      apply filter_In. split; [apply list_elem_of_In, Hfile | exact Hmd].
    + right. exists (name, sub). split; [apply list_elem_of_In, Hdir |].
      apply list_elem_of_In.
      rewrite Forall_forall in IH. apply (IH _ Hdir).
      exists names', file. rewrite <- app_assoc. auto.
Qed.

End FindMarkdownFiles.

(** ** The report of [main] *)

Lemma omap_length_le {A B : Type} (f : A -> option B) (l : list A) :
  (length (omap f l) <= length l)%nat.
Proof.
  induction l as [| x l IH]; [reflexivity |].
  cbn [omap list_omap]. destruct (f x); simpl; lia.
Qed.

Section Out.
Context {A B : Type}.
Implicit Types (m : VerifyLinks.out A) (k : A -> VerifyLinks.out B).
Implicit Types (raised : option VerifyLinks.failure).

Lemma out_bind_inv m k r :
  (m ≫= k) = inr r -> exists x, m = inr x /\ k x = inr r.
Proof. destruct m as [e | x]; [discriminate | eauto]. Qed.

Lemma out_bind_returns m k x : m = inr x -> (m ≫= k) = k x.
Proof. intros ->. reflexivity. Qed.

Lemma out_bind_raises m k e : m = inl e -> (m ≫= k) = inl e.
Proof. intros ->. reflexivity. Qed.

End Out.

Lemma effect_then_inv {B : Type} raised (k : VerifyLinks.out B) r :
  (VerifyLinks.effect raised ≫= fun _ => k) = inr r -> raised = None /\ k = inr r.
Proof. destruct raised; [discriminate | auto]. Qed.

Lemma effect_then_returns {B : Type} raised (k : VerifyLinks.out B) :
  raised = None -> (VerifyLinks.effect raised ≫= fun _ => k) = k.
Proof. intros ->. reflexivity. Qed.

Section MainReport.
Variable Path : string -> list string.
Variable parent : list string -> list string.
Variable joinpath : list string -> string -> list string.
Variable resolve : list string -> VerifyLinks.out (list string).
Variable path_exists : list string -> VerifyLinks.out bool.
Variable relative_to_root : list string -> list string.
Variable is_relative_to_root : list string -> bool.
Variable read_text : list string -> option string.
Variable sorted : list (list string) -> list (list string).
Variable print : VerifyLinks.message -> option VerifyLinks.failure.
Variable write_errors :
  list string -> list VerifyLinks.broken_link -> option VerifyLinks.failure.
Variable unlink : list string -> option VerifyLinks.failure.
Implicit Types (md_file rel_path project_root p : list string) (text link : string).
Implicit Types (links : list (string * string)) (md_files : list (list string)).
Implicit Types (total : nat) (broken : list VerifyLinks.broken_link).
Implicit Types (item : VerifyLinks.broken_link) (docs : VerifyLinks.tree).
Implicit Types (r : VerifyLinks.report).

#[local] Abbreviation resolve_path' := (VerifyLinks.resolve_path Path parent joinpath resolve).
#[local] Abbreviation links_of' := (VerifyLinks.links_of read_text).
#[local] Abbreviation check_links' :=
  (VerifyLinks.check_links Path parent joinpath resolve path_exists
     relative_to_root is_relative_to_root print).
#[local] Abbreviation check_files' :=
  (VerifyLinks.check_files Path parent joinpath resolve path_exists
     relative_to_root is_relative_to_root read_text print).
#[local] Abbreviation main' :=
  (VerifyLinks.main Path parent joinpath resolve path_exists
     relative_to_root is_relative_to_root read_text sorted print write_errors unlink).

(** The entry the loop appends for a link: none for an external link and for
    one whose path exists. *)
#[local] Abbreviation entry md_file rel_path :=
  (fun tl : string * string =>
     if VerifyLinks.is_external tl.2 then None
     else match resolve_path' md_file tl.2 with
          | inr p =>
              match path_exists p with
              | inr false =>
                  Some (VerifyLinks.mk_broken rel_path tl.1 tl.2
                          (if is_relative_to_root p then relative_to_root p else p))
              | _ => None
              end
          | inl _ => None
          end).

(** The links of a list that the loop can check: the external ones, and those
    for which neither [resolve()] nor [exists()] raises. *)
#[local] Abbreviation checkable md_file links :=
  (forall text link, (text, link) ∈ links ->
     VerifyLinks.is_external link = false ->
     exists p found, resolve_path' md_file link = inr p /\ path_exists p = inr found).

(** When the loop over the links of a file returns, it has counted every
    link, has appended, in order, an entry for each broken one, and neither
    [resolve()] nor [exists()] has raised. *)
Lemma check_links_inv md_file rel_path links total broken total' broken' :
  check_links' md_file rel_path links total broken = inr (total', broken') ->
  total' = (total + length links)%nat /\
  broken' = broken ++ omap (entry md_file rel_path) links /\
  checkable md_file links.
Proof.
  revert total broken.
  induction links as [| [text link] links IH]; intros total broken Hrun.
  - injection Hrun as <- <-. rewrite Nat.add_0_r, app_nil_r.
    split; [reflexivity |]. split; [reflexivity |].
    intros text link Hin. inversion Hin.
  - cbn [VerifyLinks.check_links] in Hrun. cbn [omap list_omap length fst snd].
    destruct (VerifyLinks.is_external link) eqn:Hext.
    + apply IH in Hrun as (-> & -> & Hall).
      split; [lia |]. split; [reflexivity |].
      intros text' link' Hin Hext'.
      apply elem_of_cons in Hin as [[= -> ->] | Hin]; [congruence | eauto].
    + apply out_bind_inv in Hrun as (p & Hp & Hrun).
      apply out_bind_inv in Hrun as (found & Hfound & Hrun).
      rewrite Hp, Hfound.
      assert (Hhere : forall text' link', (text', link') ∈ (text, link) :: links ->
                VerifyLinks.is_external link' = false ->
                checkable md_file links ->
                exists p' found', resolve_path' md_file link' = inr p' /\
                                  path_exists p' = inr found').
      { intros text' link' Hin Hext' Hall.
        apply elem_of_cons in Hin as [[= -> ->] | Hin]; eauto. }
      destruct found; cbn [negb] in Hrun.
      * apply IH in Hrun as (-> & -> & Hall).
        split; [lia |]. split; [reflexivity |]. eauto.
      * apply effect_then_inv in Hrun as (_ & Hrun).
        apply IH in Hrun as (-> & -> & Hall).
        split; [lia |]. split; [rewrite <- app_assoc; reflexivity |]. eauto.
Qed.

(** With an output that takes every line, the loop returns when every link
    of the file can be checked. *)
Lemma check_links_returns md_file rel_path links total broken :
  (forall m, print m = None) ->
  checkable md_file links ->
  exists counted, check_links' md_file rel_path links total broken = inr counted.
Proof.
  intros Hprint. revert total broken.
  induction links as [| [text link] links IH]; intros total broken Hall.
  - eexists. reflexivity.
  - assert (Hrest : checkable md_file links).
    { intros text' link' Hin Hext'.
      apply (Hall text' link'); [apply list_elem_of_further, Hin | exact Hext']. }
    cbn [VerifyLinks.check_links].
    destruct (VerifyLinks.is_external link) eqn:Hext; [apply IH, Hrest |].
    destruct (Hall text link (list_elem_of_here _ _) Hext) as (p & found & Hp & Hfound).
    rewrite (out_bind_returns _ _ _ Hp), (out_bind_returns _ _ _ Hfound).
    destruct found; cbn [negb]; [apply IH, Hrest |].
    rewrite (effect_then_returns _ _ (Hprint _)). apply IH, Hrest.
Qed.

(** A link that cannot be checked ends the loop with an exception. *)
Lemma check_links_raises md_file rel_path links total broken text link :
  (text, link) ∈ links ->
  VerifyLinks.is_external link = false ->
  (forall p found, resolve_path' md_file link = inr p -> path_exists p <> inr found) ->
  exists e, check_links' md_file rel_path links total broken = inl e.
Proof.
  intros Hin Hext Hraises.
  destruct (check_links' md_file rel_path links total broken) as [e | [total' broken']]
    eqn:Hrun; [eauto |].
  apply check_links_inv in Hrun as (_ & _ & Hall).
  destruct (Hall text link Hin Hext) as (p & found & Hp & Hfound).
  exfalso. exact (Hraises p found Hp Hfound).
Qed.

(** The entries of one file. *)
#[local] Abbreviation entries_of :=
  (fun md_file => omap (entry md_file (relative_to_root md_file)) (links_of' md_file)).

Lemma links_of_read md_file content :
  read_text md_file = Some content ->
  links_of' md_file = VerifyLinks.extract_links content.
Proof. intros Hread. unfold VerifyLinks.links_of. rewrite Hread. reflexivity. Qed.

Lemma links_of_unread md_file : read_text md_file = None -> links_of' md_file = [].
Proof. intros Hread. unfold VerifyLinks.links_of. rewrite Hread. reflexivity. Qed.

(** When the loop over the files returns, it has added up the links of the
    files that can be read and appended their entries, file after file, and
    every link of these files could be checked. *)
Lemma check_files_inv md_files total broken total' broken' :
  check_files' md_files total broken = inr (total', broken') ->
  total' = (total + sum_list (map (fun md_file => length (links_of' md_file)) md_files))%nat /\
  broken' = broken ++ flat_map entries_of md_files /\
  (forall md_file, md_file ∈ md_files -> checkable md_file (links_of' md_file)).
Proof.
  revert total broken.
  induction md_files as [| md_file md_files IH]; intros total broken Hrun.
  - injection Hrun as <- <-. rewrite Nat.add_0_r, app_nil_r.
    split; [reflexivity |]. split; [reflexivity |].
    intros md_file Hin. inversion Hin.
  - cbn [VerifyLinks.check_files] in Hrun.
    cbn [map sum_list sum_list_with flat_map id].
    destruct (read_text md_file) as [content |] eqn:Hread.
    + rewrite (links_of_read _ _ Hread).
      destruct (VerifyLinks.extract_links content) as [| tl links] eqn:Hlinks.
      * apply IH in Hrun as (-> & -> & Hall).
        split; [reflexivity |]. split; [reflexivity |].
        intros md_file' Hin.
        apply elem_of_cons in Hin as [-> | Hin]; [| exact (Hall _ Hin)].
        rewrite (links_of_read _ _ Hread), Hlinks.
        intros text link Hnone. inversion Hnone.
      * apply effect_then_inv in Hrun as (_ & Hrun).
        apply out_bind_inv in Hrun as ([total1 broken1] & Hlinks_run & Hrun).
        apply check_links_inv in Hlinks_run as (-> & -> & Hchecked).
        apply IH in Hrun as (-> & -> & Hall).
        split; [cbn [fst]; lia |].
        split; [cbn [snd]; rewrite <- app_assoc; reflexivity |].
        intros md_file' Hin.
        apply elem_of_cons in Hin as [-> | Hin]; [| exact (Hall _ Hin)].
        rewrite (links_of_read _ _ Hread), Hlinks. exact Hchecked.
    + rewrite (links_of_unread _ Hread).
      apply effect_then_inv in Hrun as (_ & Hrun).
      apply IH in Hrun as (-> & -> & Hall).
      split; [reflexivity |]. split; [reflexivity |].
      intros md_file' Hin.
      apply elem_of_cons in Hin as [-> | Hin]; [| exact (Hall _ Hin)].
      rewrite (links_of_unread _ Hread).
      intros text link Hnone. inversion Hnone.
Qed.

Lemma check_files_returns md_files total broken :
  (forall m, print m = None) ->
  (forall md_file, md_file ∈ md_files -> checkable md_file (links_of' md_file)) ->
  exists counted, check_files' md_files total broken = inr counted.
Proof.
  intros Hprint. revert total broken.
  induction md_files as [| md_file md_files IH]; intros total broken Hall.
  - eexists. reflexivity.
  - assert (Hrest : forall md_file', md_file' ∈ md_files ->
                      checkable md_file' (links_of' md_file')).
    { intros md_file' Hin. apply Hall, list_elem_of_further, Hin. }
    pose proof (Hall md_file (list_elem_of_here _ _)) as Hhere.
    cbn [VerifyLinks.check_files].
    destruct (read_text md_file) as [content |] eqn:Hread.
    + rewrite (links_of_read _ _ Hread) in Hhere.
      destruct (VerifyLinks.extract_links content) as [| tl links] eqn:Hlinks;
        [apply IH, Hrest |].
      rewrite (effect_then_returns _ _ (Hprint _)).
      destruct (check_links_returns md_file (relative_to_root md_file) (tl :: links)
                  total broken Hprint Hhere) as (counted & Hcounted).
      rewrite (out_bind_returns _ _ _ Hcounted). apply IH, Hrest.
    + rewrite (effect_then_returns _ _ (Hprint _)). apply IH, Hrest.
Qed.

Lemma print_items_returns (items : list VerifyLinks.broken_link) :
  (forall m, print m = None) -> VerifyLinks.print_items print items = inr ().
Proof.
  intros Hprint. induction items as [| item items IH]; [reflexivity |].
  cbn [VerifyLinks.print_items].
  rewrite !(effect_then_returns _ _ (Hprint _)). exact IH.
Qed.

(** An entry of a file is a broken link of it. *)
Lemma elem_of_entries_of md_file item :
  item ∈ entries_of md_file <->
  exists text link p,
    (text, link) ∈ links_of' md_file /\
    VerifyLinks.is_external link = false /\
    resolve_path' md_file link = inr p /\
    path_exists p = inr false /\
    item = VerifyLinks.mk_broken (relative_to_root md_file) text link
             (if is_relative_to_root p then relative_to_root p else p).
Proof.
  rewrite list_elem_of_omap. split.
  - intros ([text link] & Hin & Hitem). cbn [fst snd] in Hitem.
    destruct (VerifyLinks.is_external link) eqn:Hext; [discriminate |].
    destruct (resolve_path' md_file link) as [e | p] eqn:Hp; [discriminate |].
    destruct (path_exists p) as [e | []] eqn:Hfound; try discriminate.
    injection Hitem as <-. exists text, link, p. auto.
  - intros (text & link & p & Hin & Hext & Hp & Hfound & ->).
    exists (text, link). split; [exact Hin |].
    cbn [fst snd]. rewrite Hext, Hp, Hfound. reflexivity.
Qed.

(** The two ways [main] returns: without the directory, and with it. *)
Lemma main_inv project_root docs r :
  main' project_root docs = inr r ->
  path_exists (project_root ++ ["docs"; "claude"]) = inr false /\
    r = VerifyLinks.mk_report 1 0 [] VerifyLinks.Untouched
  \/
  path_exists (project_root ++ ["docs"; "claude"]) = inr true /\
    exists total broken,
      check_files'
        (sorted (VerifyLinks.find_markdown_files (project_root ++ ["docs"; "claude"]) docs))
        0 [] = inr (total, broken) /\
      (broken <> [] /\
         write_errors (project_root ++ ["link-verification-errors.txt"]) broken = None /\
         r = VerifyLinks.mk_report 1 total broken (VerifyLinks.Written broken)
       \/
       broken = [] /\
         path_exists (project_root ++ ["link-verification-errors.txt"]) = inr true /\
         unlink (project_root ++ ["link-verification-errors.txt"]) = None /\
         r = VerifyLinks.mk_report 0 total [] VerifyLinks.Removed
       \/
       broken = [] /\
         path_exists (project_root ++ ["link-verification-errors.txt"]) = inr false /\
         r = VerifyLinks.mk_report 0 total [] VerifyLinks.Untouched).
Proof.
  unfold VerifyLinks.main. intros Hrun.
  apply effect_then_inv in Hrun as (_ & Hrun).
  apply effect_then_inv in Hrun as (_ & Hrun).
  apply out_bind_inv in Hrun as (docs_found & Hdocs & Hrun).
  destruct docs_found; cbn [negb] in Hrun.
  - right. split; [exact Hdocs |].
    apply effect_then_inv in Hrun as (_ & Hrun).
    apply effect_then_inv in Hrun as (_ & Hrun).
    apply out_bind_inv in Hrun as ([total broken] & Hcounted & Hrun).
    cbn [fst snd] in Hrun.
    do 5 (apply effect_then_inv in Hrun as (_ & Hrun)).
    exists total, broken. split; [exact Hcounted |].
    destruct broken as [| item broken].
    + apply effect_then_inv in Hrun as (_ & Hrun).
      apply out_bind_inv in Hrun as (error_file_found & Hfound & Hrun).
      destruct error_file_found.
      * apply effect_then_inv in Hrun as (Hunlink & Hrun).
        injection Hrun as <-. right. left. auto.
      * injection Hrun as <-. right. right. auto.
    + do 2 (apply effect_then_inv in Hrun as (_ & Hrun)).
      apply out_bind_inv in Hrun as ([] & _ & Hrun).
      apply effect_then_inv in Hrun as (Hwrite & Hrun).
      apply effect_then_inv in Hrun as (_ & Hrun).
      injection Hrun as <-. left. auto.
  - left. split; [exact Hdocs |].
    apply effect_then_inv in Hrun as (_ & Hrun).
    injection Hrun as <-. reflexivity.
Qed.

(** No entry among the entries of the files means no broken link. *)
Lemma entries_nil_inv md_files md_file text link p :
  flat_map entries_of md_files = [] ->
  md_file ∈ md_files ->
  (text, link) ∈ links_of' md_file ->
  VerifyLinks.is_external link = false ->
  resolve_path' md_file link = inr p ->
  path_exists p <> inr false.
Proof.
  intros Hnil Hfile Hlink Hext Hp Hfound.
  assert (Hin : VerifyLinks.mk_broken (relative_to_root md_file) text link
                  (if is_relative_to_root p then relative_to_root p else p)
                  ∈ flat_map entries_of md_files).
  { apply list_elem_of_In, in_flat_map. exists md_file.
    split; [apply list_elem_of_In, Hfile |].
    apply list_elem_of_In, elem_of_entries_of.
    exists text, link, p. auto. }
  rewrite Hnil in Hin. inversion Hin.
Qed.

(** [main] returns 0 or 1, and 0 exactly when the directory is there and
    every link of a Markdown file that can be read, external ones aside,
    resolves to a path that exists.  External links and files that cannot be
    read never make it return 1. *)
Theorem main_exit_code project_root docs r :
  VerifyLinks.main Path parent joinpath resolve path_exists relative_to_root
    is_relative_to_root read_text sorted print write_errors unlink
    project_root docs = inr r ->
  (VerifyLinks.exit_code r = 0 \/ VerifyLinks.exit_code r = 1) /\
  (VerifyLinks.exit_code r = 0 <->
   path_exists (project_root ++ ["docs"; "claude"]) = inr true /\
   forall md_file text link,
     md_file ∈ sorted (VerifyLinks.find_markdown_files
                         (project_root ++ ["docs"; "claude"]) docs) ->
     (text, link) ∈ VerifyLinks.links_of read_text md_file ->
     VerifyLinks.is_external link = false ->
     exists p,
       VerifyLinks.resolve_path Path parent joinpath resolve md_file link = inr p /\
       path_exists p = inr true).
Proof.
  intros Hrun.
  apply main_inv in Hrun
    as [(Hdocs & ->) | (Hdocs & total & broken & Hcounted & Hcases)].
  { split; [right; reflexivity |]. split; [discriminate |].
    intros [Hfound _]. congruence. }
  apply check_files_inv in Hcounted as (_ & Hbroken & Hchecked).
  cbn [app] in Hbroken.
  destruct Hcases as [(Hsome & _ & ->) | [(-> & _ & _ & ->) | (-> & _ & ->)]];
    cbn [VerifyLinks.exit_code].
  - split; [right; reflexivity |]. split; [discriminate |].
    intros [_ Hall]. exfalso. apply Hsome. rewrite Hbroken.
    destruct (flat_map _ _) as [| item rest] eqn:Hflat; [reflexivity |].
    assert (Hin : item ∈ flat_map entries_of
                    (sorted (VerifyLinks.find_markdown_files
                               (project_root ++ ["docs"; "claude"]) docs)))
      by (rewrite Hflat; apply list_elem_of_here).
    apply list_elem_of_In, in_flat_map in Hin as (md_file & Hfile & Hin).
    apply list_elem_of_In, elem_of_entries_of in Hin
      as (text & link & p & Hlink & Hext & Hp & Hfound & _).
    apply list_elem_of_In in Hfile.
    destruct (Hall md_file text link Hfile Hlink Hext) as (p' & Hp' & Hfound').
    congruence.
  - split; [left; reflexivity |]. split; [| reflexivity].
    intros _. split; [exact Hdocs |].
    intros md_file text link Hfile Hlink Hext.
    destruct (Hchecked md_file Hfile text link Hlink Hext) as (p & found & Hp & Hfound).
    exists p. split; [exact Hp |].
    destruct found; [exact Hfound |].
    exfalso. symmetry in Hbroken.
    exact (entries_nil_inv _ _ _ _ _ Hbroken Hfile Hlink Hext Hp Hfound).
  - split; [left; reflexivity |]. split; [| reflexivity].
    intros _. split; [exact Hdocs |].
    intros md_file text link Hfile Hlink Hext.
    destruct (Hchecked md_file Hfile text link Hlink Hext) as (p & found & Hp & Hfound).
    exists p. split; [exact Hp |].
    destruct found; [exact Hfound |].
    exfalso. symmetry in Hbroken.
    exact (entries_nil_inv _ _ _ _ _ Hbroken Hfile Hlink Hext Hp Hfound).
Qed.

(** When [main] returns with the directory there, the entries of the report
    are the broken links, no more and no fewer: an entry is a link taken from
    a file that was read, not external, resolved to a path that does not
    exist, under the file, the text and the link it was found with. *)
Theorem main_reports_broken_links project_root docs r item :
  VerifyLinks.main Path parent joinpath resolve path_exists relative_to_root
    is_relative_to_root read_text sorted print write_errors unlink
    project_root docs = inr r ->
  path_exists (project_root ++ ["docs"; "claude"]) = inr true ->
  item ∈ VerifyLinks.broken_links r <->
  exists md_file text link p,
    md_file ∈ sorted (VerifyLinks.find_markdown_files
                        (project_root ++ ["docs"; "claude"]) docs) /\
    (text, link) ∈ VerifyLinks.links_of read_text md_file /\
    VerifyLinks.is_external link = false /\
    VerifyLinks.resolve_path Path parent joinpath resolve md_file link = inr p /\
    path_exists p = inr false /\
    item = VerifyLinks.mk_broken (relative_to_root md_file) text link
             (if is_relative_to_root p then relative_to_root p else p).
Proof.
  intros Hrun Hdocs.
  apply main_inv in Hrun
    as [(Hmissing & _) | (_ & total & broken & Hcounted & Hcases)]; [congruence |].
  apply check_files_inv in Hcounted as (_ & Hbroken & _).
  cbn [app] in Hbroken.
  assert (Hreport : VerifyLinks.broken_links r = broken).
  { destruct Hcases as [(_ & _ & ->) | [(-> & _ & _ & ->) | (-> & _ & ->)]];
      reflexivity. }
  rewrite Hreport, Hbroken, list_elem_of_In, in_flat_map. split.
  - intros (md_file & Hfile & Hin).
    apply list_elem_of_In, elem_of_entries_of in Hin
      as (text & link & p & Hlink & Hext & Hp & Hfound & ->).
    exists md_file, text, link, p.
    split; [apply list_elem_of_In, Hfile |]. auto.
  - intros (md_file & text & link & p & Hfile & Hlink & Hext & Hp & Hfound & ->).
    exists md_file. split; [apply list_elem_of_In, Hfile |].
    apply list_elem_of_In, elem_of_entries_of. exists text, link, p. auto.
Qed.

(** What the report holds when [main] returns.  Without the directory: exit
    code 1, no link counted, no entry, and the errors file untouched.  With
    it: [total_links] counts every link of every file that was read, external
    ones included; there are never more entries than that; with an entry the
    exit code is 1 and the errors file was written with the entries; without
    one the exit code is 0 and the errors file was removed if it was there. *)
Theorem main_counts project_root docs r :
  VerifyLinks.main Path parent joinpath resolve path_exists relative_to_root
    is_relative_to_root read_text sorted print write_errors unlink
    project_root docs = inr r ->
  (path_exists (project_root ++ ["docs"; "claude"]) = inr false ->
   r = VerifyLinks.mk_report 1 0 [] VerifyLinks.Untouched) /\
  (path_exists (project_root ++ ["docs"; "claude"]) = inr true ->
   VerifyLinks.total_links r
     = sum_list (map (fun md_file => length (VerifyLinks.links_of read_text md_file))
                   (sorted (VerifyLinks.find_markdown_files
                              (project_root ++ ["docs"; "claude"]) docs))) /\
   (length (VerifyLinks.broken_links r) <= VerifyLinks.total_links r)%nat /\
   (VerifyLinks.broken_links r <> [] ->
    VerifyLinks.exit_code r = 1 /\
    VerifyLinks.errors r = VerifyLinks.Written (VerifyLinks.broken_links r)) /\
   (VerifyLinks.broken_links r = [] ->
    VerifyLinks.exit_code r = 0 /\
    (VerifyLinks.errors r = VerifyLinks.Removed /\
       path_exists (project_root ++ ["link-verification-errors.txt"]) = inr true
     \/
     VerifyLinks.errors r = VerifyLinks.Untouched /\
       path_exists (project_root ++ ["link-verification-errors.txt"]) = inr false))).
Proof.
  intros Hrun.
  apply main_inv in Hrun
    as [(Hmissing & ->) | (Hdocs & total & broken & Hcounted & Hcases)].
  { split; [reflexivity | congruence]. }
  split; [congruence |]. intros _.
  apply check_files_inv in Hcounted as (Htotal & Hbroken & _).
  cbn [app Nat.add] in Htotal, Hbroken.
  assert (Hle : (length broken <= total)%nat).
  { rewrite Htotal, Hbroken.
    clear. induction (sorted _) as [| md_file md_files IH]; [reflexivity |].
    cbn [flat_map map sum_list sum_list_with id]. rewrite length_app.
    assert (length (entries_of md_file) <= length (links_of' md_file))%nat
      by apply omap_length_le.
    lia. }
  destruct Hcases as [(Hsome & _ & ->) | [(-> & Hfound & _ & ->) | (-> & Hfound & ->)]];
    cbn [VerifyLinks.total_links VerifyLinks.broken_links VerifyLinks.exit_code
         VerifyLinks.errors].
  - split; [exact Htotal |]. split; [exact Hle |].
    split; [auto | intros Hnil; contradiction].
  - split; [exact Htotal |]. split; [exact Hle |].
    split; [intros Hne; contradiction | auto].
  - split; [exact Htotal |]. split; [exact Hle |].
    split; [intros Hne; contradiction | auto].
Qed.

(** A link on which [resolve()] or [exists()] raises ends [main] with an
    exception: for a link of a file that was read, not external, no report is
    returned, whatever the other links are. *)
Theorem main_raises_on_unchecked_link project_root docs md_file text link :
  path_exists (project_root ++ ["docs"; "claude"]) = inr true ->
  md_file ∈ sorted (VerifyLinks.find_markdown_files
                      (project_root ++ ["docs"; "claude"]) docs) ->
  (text, link) ∈ VerifyLinks.links_of read_text md_file ->
  VerifyLinks.is_external link = false ->
  (exists e, VerifyLinks.resolve_path Path parent joinpath resolve md_file link = inl e) \/
  (exists p e,
     VerifyLinks.resolve_path Path parent joinpath resolve md_file link = inr p /\
     path_exists p = inl e) ->
  exists e,
    VerifyLinks.main Path parent joinpath resolve path_exists relative_to_root
      is_relative_to_root read_text sorted print write_errors unlink
      project_root docs = inl e.
Proof.
  intros Hdocs Hfile Hlink Hext Hraises.
  destruct (main' project_root docs) as [e | r] eqn:Hrun; [eauto |].
  exfalso.
  apply main_inv in Hrun
    as [(Hmissing & _) | (_ & total & broken & Hcounted & _)]; [congruence |].
  apply check_files_inv in Hcounted as (_ & _ & Hchecked).
  destruct (Hchecked md_file Hfile text link Hlink Hext) as (p & found & Hp & Hfound).
  destruct Hraises as [(e & He) | (p' & e & Hp' & He)]; congruence.
Qed.

(** [main] returns a report when nothing it calls raises: the output takes
    every line, [exists()] answers for the directory, and, with the directory
    there, [resolve()] and [exists()] answer for every link that is not
    external, the errors file can be written, and it can be looked for and
    removed. *)
Theorem main_returns project_root docs docs_found :
  (forall m, print m = None) ->
  path_exists (project_root ++ ["docs"; "claude"]) = inr docs_found ->
  (docs_found = true ->
   (forall md_file text link,
      md_file ∈ sorted (VerifyLinks.find_markdown_files
                          (project_root ++ ["docs"; "claude"]) docs) ->
      (text, link) ∈ VerifyLinks.links_of read_text md_file ->
      VerifyLinks.is_external link = false ->
      exists p found,
        VerifyLinks.resolve_path Path parent joinpath resolve md_file link = inr p /\
        path_exists p = inr found) /\
   (forall items,
      write_errors (project_root ++ ["link-verification-errors.txt"]) items = None) /\
   (exists found,
      path_exists (project_root ++ ["link-verification-errors.txt"]) = inr found) /\
   unlink (project_root ++ ["link-verification-errors.txt"]) = None) ->
  exists r,
    VerifyLinks.main Path parent joinpath resolve path_exists relative_to_root
      is_relative_to_root read_text sorted print write_errors unlink
      project_root docs = inr r.
Proof.
  intros Hprint Hdocs Hcalls. unfold VerifyLinks.main.
  rewrite ?effect_then_returns by apply Hprint.
  rewrite (out_bind_returns _ _ _ Hdocs).
  destruct docs_found; cbn [negb]; [| eexists; reflexivity].
  destruct (Hcalls eq_refl) as (Hchecked & Hwrite & (found & Hfound) & Hunlink).
  destruct (check_files_returns
              (sorted (VerifyLinks.find_markdown_files
                         (project_root ++ ["docs"; "claude"]) docs)) 0 [] Hprint)
    as ([total broken] & Hcounted).
  { intros md_file Hfile text link Hlink Hext. eauto. }
  rewrite (out_bind_returns _ _ _ Hcounted). cbn [fst snd].
  rewrite ?effect_then_returns by apply Hprint.
  destruct broken as [| item broken].
  - rewrite ?effect_then_returns by apply Hprint.
    rewrite (out_bind_returns _ _ _ Hfound).
    destruct found; [| eexists; reflexivity].
    rewrite (effect_then_returns _ _ Hunlink). eexists. reflexivity.
  - rewrite ?effect_then_returns by apply Hprint.
    rewrite (out_bind_returns _ _ _ (print_items_returns _ Hprint)).
    rewrite (effect_then_returns _ _ (Hwrite _)).
    rewrite ?effect_then_returns by apply Hprint.
    eexists. reflexivity.
Qed.

End MainReport.

Lemma main_exit_code_witness :
  exists r,
    sample_main = inr r /\
    VerifyLinks.exit_code r = 1 /\
    ~ (sample_exists ["docs"; "claude"] = true /\
       forall md_file text link,
         md_file ∈ VerifyLinks.find_markdown_files ["docs"; "claude"] sample_docs ->
         (text, link) ∈ VerifyLinks.links_of sample_read_text md_file ->
         VerifyLinks.is_external link = false ->
         exists p,
           VerifyLinks.resolve_path (fun s => [s]) (@removelast string)
             sample_joinpath inr md_file link = inr p /\
           sample_exists p = true).
Proof.
  pose (r := VerifyLinks.mk_report 1 3
               [VerifyLinks.mk_broken ["docs"; "claude"; "README.md"] "Gone"
                  "missing.md" ["docs"; "claude"; "missing.md"]]
               (VerifyLinks.Written
                  [VerifyLinks.mk_broken ["docs"; "claude"; "README.md"] "Gone"
                     "missing.md" ["docs"; "claude"; "missing.md"]])).
  assert (Hrun : sample_main = inr r) by (vm_compute; reflexivity).
  exists r. split; [exact Hrun |]. split; [reflexivity |].
  destruct (main_exit_code (fun s => [s]) (@removelast string) sample_joinpath inr
              (fun p => inr (sample_exists p)) id (fun _ => true) sample_read_text id
              (fun _ => None) (fun _ _ => None) (fun _ => None) [] sample_docs r Hrun)
    as [_ [_ Hzero]].
  intros [Hdocs Hall].
  assert (Hcode : VerifyLinks.exit_code r = 0).
  { apply Hzero. split; [cbn [app]; rewrite Hdocs; reflexivity |].
    intros md_file text link Hfile Hlink Hext.
    destruct (Hall md_file text link Hfile Hlink Hext) as (p & Hp & Hfound).
    exists p. split; [exact Hp | rewrite Hfound; reflexivity]. }
  discriminate Hcode.
Defined.

Lemma main_reports_broken_links_witness :
  exists md_file text link p,
    md_file ∈ id (VerifyLinks.find_markdown_files ([] ++ ["docs"; "claude"]) sample_docs) /\
    (text, link) ∈ VerifyLinks.links_of sample_read_text md_file /\
    VerifyLinks.is_external link = false /\
    VerifyLinks.resolve_path (fun s => [s]) (@removelast string) sample_joinpath inr
      md_file link = inr p /\
    @inr VerifyLinks.failure bool (sample_exists p) = inr false /\
    VerifyLinks.mk_broken ["docs"; "claude"; "README.md"] "Gone" "missing.md"
      ["docs"; "claude"; "missing.md"]
    = VerifyLinks.mk_broken (id md_file) text link (if true then id p else p).
Proof.
  pose (item := VerifyLinks.mk_broken ["docs"; "claude"; "README.md"] "Gone"
                  "missing.md" ["docs"; "claude"; "missing.md"]).
  pose (r := VerifyLinks.mk_report 1 3 [item] (VerifyLinks.Written [item])).
  assert (Hrun : sample_main = inr r) by (vm_compute; reflexivity).
  apply (proj1 (main_reports_broken_links (fun s => [s]) (@removelast string)
                  sample_joinpath inr (fun p => inr (sample_exists p)) id
                  (fun _ => true) sample_read_text id (fun _ => None)
                  (fun _ _ => None) (fun _ => None) [] sample_docs r item
                  Hrun eq_refl)).
  apply list_elem_of_here.
Defined.

Lemma main_counts_witness :
  (exists r,
     sample_main = inr r /\
     VerifyLinks.total_links r = 3%nat /\
     (length (VerifyLinks.broken_links r) <= VerifyLinks.total_links r)%nat /\
     VerifyLinks.exit_code r = 1 /\
     VerifyLinks.errors r = VerifyLinks.Written (VerifyLinks.broken_links r)) /\
  VerifyLinks.main (fun s => [s]) (@removelast string) sample_joinpath inr
    (fun _ => inr false) id (fun _ => true) sample_read_text id
    (fun _ => None) (fun _ _ => None) (fun _ => None) [] sample_docs
  = inr (VerifyLinks.mk_report 1 0 [] VerifyLinks.Untouched).
Proof.
  split.
  - pose (item := VerifyLinks.mk_broken ["docs"; "claude"; "README.md"] "Gone"
                    "missing.md" ["docs"; "claude"; "missing.md"]).
    pose (r := VerifyLinks.mk_report 1 3 [item] (VerifyLinks.Written [item])).
    assert (Hrun : sample_main = inr r) by (vm_compute; reflexivity).
    exists r. split; [exact Hrun |].
    destruct (main_counts (fun s => [s]) (@removelast string) sample_joinpath inr
                (fun p => inr (sample_exists p)) id (fun _ => true) sample_read_text id
                (fun _ => None) (fun _ _ => None) (fun _ => None) [] sample_docs r Hrun)
      as [_ Hfound].
    destruct (Hfound eq_refl) as (Htotal & Hle & Hsome & _).
    split; [rewrite Htotal; vm_compute; reflexivity |].
    split; [exact Hle |]. apply Hsome. discriminate.
  - destruct (VerifyLinks.main (fun s => [s]) (@removelast string) sample_joinpath inr
                (fun _ => inr false) id (fun _ => true) sample_read_text id
                (fun _ => None) (fun _ _ => None) (fun _ => None) [] sample_docs)
      as [e | r] eqn:Hrun; [vm_compute in Hrun; discriminate Hrun |].
    destruct (main_counts (fun s => [s]) (@removelast string) sample_joinpath inr
                (fun _ => inr false) id (fun _ => true) sample_read_text id
                (fun _ => None) (fun _ _ => None) (fun _ => None) [] sample_docs r Hrun)
      as [Hmissing _].
    rewrite (Hmissing eq_refl). reflexivity.
Defined.

Lemma main_raises_on_unchecked_link_witness :
  exists e,
    VerifyLinks.main (fun s => [s]) (@removelast string) sample_joinpath inr
      checked_exists id (fun _ => true) overlong_read_text id
      (fun _ => None) (fun _ _ => None) (fun _ => None) [] sample_docs
    = inl e.
Proof.
  apply (main_raises_on_unchecked_link (fun s => [s]) (@removelast string)
           sample_joinpath inr checked_exists id (fun _ => true) overlong_read_text id
           (fun _ => None) (fun _ _ => None) (fun _ => None) [] sample_docs
           ["docs"; "claude"; "README.md"] "Long" overlong_md).
  - vm_compute. reflexivity.
  - vm_compute. apply list_elem_of_here.
  - vm_compute. apply list_elem_of_here.
  - vm_compute. reflexivity.
  - right. exists (["docs"; "claude"] ++ [overlong_md]), (VerifyLinks.OSError 36).
    split; vm_compute; reflexivity.
Defined.

Lemma main_returns_witness :
  exists r,
    VerifyLinks.main (fun s => [s]) (@removelast string) sample_joinpath inr
      (fun p => inr (sample_exists p)) id (fun _ => true) sample_read_text id
      (fun _ => None) (fun _ _ => None) (fun _ => None) [] sample_docs
    = inr r.
Proof.
  apply (main_returns (fun s => [s]) (@removelast string) sample_joinpath inr
           (fun p => inr (sample_exists p)) id (fun _ => true) sample_read_text id
           (fun _ => None) (fun _ _ => None) (fun _ => None) [] sample_docs true).
  - reflexivity.
  - vm_compute. reflexivity.
  - intros _. split; [| split; [reflexivity | split; [eexists |]; reflexivity]].
    intros md_file text link _ _ _. unfold VerifyLinks.resolve_path.
    destruct (String.prefix "/" link); eexists _, _; split; reflexivity.
Defined.
